(** * Belgian broadcaster extractors of youtube-dl: canvas.py and vier.py

    A shallow embedding of [youtube_dl/extractor/canvas.py] (CanvasIE,
    VrtNUIE) and [youtube_dl/extractor/vier.py] (VierIE, VierVideosIE),
    and the properties of the extraction pipeline proved about it.

    Python strings are modelled as [string] (byte strings), Python integers
    as [Z], Python floats as binary64 primitive floats, parsed JSON as the
    inductive type [JSON], and the side effects of an extractor (network
    requests, cookie jar, instance attributes, warnings) as an explicit
    state threaded through a state-and-exception monad. *)

From Stdlib Require Import ZArith Floats Ascii String DecimalString.
From stdpp Require Import base option list strings gmap.

#[local] Open Scope string_scope.
#[local] Open Scope Z_scope.
#[local] Disable Notation "_ ++ _" : string_scope.
#[local] Set Warnings "-inexact-float,-register-all".

(** ** Python strings *)

Module PyStr.

(** Whitespace removed by [str.strip()], on the ASCII range: tab, line
    feed, vertical tab, form feed, carriage return, the separators
    0x1c..0x1f and the space. *)
Definition is_space (c : ascii) : bool :=
  let n := nat_of_ascii c in
  ((9 <=? n) && (n <=? 13) || (28 <=? n) && (n <=? 32))%nat.

Fixpoint lstrip_by (p : ascii → bool) (s : string) : string :=
  match s with
  | String c s' => if p c then lstrip_by p s' else s
  | EmptyString => EmptyString
  end.

Definition strip_by (p : ascii → bool) (s : string) : string :=
  String.rev (lstrip_by p (String.rev (lstrip_by p s))).

(** [s.strip()] *)
Definition strip : string → string := strip_by is_space.

(** [s.strip(chars)] for a one-character [chars] *)
Definition strip_char (c : ascii) : string → string :=
  strip_by (Ascii.eqb c).

(** [s.startswith(p)] *)
Fixpoint startswith (p s : string) : bool :=
  match p, s with
  | EmptyString, _ => true
  | String a p', String b s' => Ascii.eqb a b && startswith p' s'
  | String _ _, EmptyString => false
  end.

(** [needle in hay] *)
Fixpoint contains (needle hay : string) : bool :=
  startswith needle hay ||
  match hay with
  | String _ hay' => contains needle hay'
  | EmptyString => false
  end.

(** [s.endswith(e)] *)
Definition endswith (e s : string) : bool :=
  startswith (String.rev e) (String.rev s).

(** [s.split(sep)[0]] for a one-character separator: the part of [s]
    before the first occurrence of [sep], all of [s] when there is none. *)
Fixpoint split_head (sep : ascii) (s : string) : string :=
  match s with
  | String c s' => if Ascii.eqb c sep then EmptyString
                   else String c (split_head sep s')
  | EmptyString => EmptyString
  end.

(** [s[:n]] for [0 <= n] *)
Fixpoint take (n : nat) (s : string) : string :=
  match n, s with
  | S n', String c s' => String c (take n' s')
  | _, _ => EmptyString
  end.

(** [s[:-n]] for [0 <= n]: nothing is left when [n] is 0. *)
Definition drop_last (n : nat) (s : string) : string :=
  match n with
  | O => EmptyString
  | _ => take (String.length s - n) s
  end.

(** ['%d' % n] *)
Definition of_Z (n : Z) : string :=
  match n with
  | Z0 => "0"
  | Zpos p => NilEmpty.string_of_uint (Pos.to_uint p)
  | Zneg p => "-" +:+ NilEmpty.string_of_uint (Pos.to_uint p)
  end.

Definition digit_of (c : ascii) : option Z :=
  let n := nat_of_ascii c in
  if ((48 <=? n) && (n <=? 57))%nat then Some (Z.of_nat (n - 48)) else None.

Fixpoint digits_to_Z (acc : Z) (s : string) : option Z :=
  match s with
  | EmptyString => Some acc
  | String c s' =>
      match digit_of c with
      | Some d => digits_to_Z (10 * acc + d) s'
      | None => None
      end
  end.

Definition nonempty_digits (s : string) : option Z :=
  match s with
  | EmptyString => None
  | _ => digits_to_Z 0 s
  end.

(** [int(s)] on a string: surrounding whitespace is ignored, one optional
    sign, then at least one decimal digit; [None] stands for the
    [ValueError] of any other text.  (The underscore digit separators
    that Python 3.6 accepts and Python 2 refuses are not modelled.) *)
Definition to_int (s : string) : option Z :=
  match strip s with
  | String "-" r => Z.opp <$> nonempty_digits r
  | String "+" r => nonempty_digits r
  | r => nonempty_digits r
  end.

End PyStr.

(** ** Python values and exceptions *)

(** The value of [json.loads]: [None], booleans, integers, floats, strings,
    lists and dictionaries.  A dictionary keeps its items in insertion
    order, as Python's does; its keys are distinct. *)
Inductive JSON : Type :=
| JNull
| JBool (b : bool)
| JInt (n : Z)
| JFloat (x : float)
| JStr (s : string)
| JList (items : list JSON)
| JDict (items : list (string * JSON)).

(** The exceptions an extraction can end with.  The first six are the
    [ExtractorError]s of the extractors and of the host library, told apart
    by what they report; the others are Python's own. *)
Inductive Exn : Type :=
| RegexNotFoundError (name : string) (* Unable to extract <name> *)
| NoVideoFormatsFound                (* No video formats found *)
| LoginRequired                      (* raise_login_required *)
| LoginFailed (msg : string)         (* Unable to login: ... *)
| TransportError (errnote : string)  (* a fatal download that failed *)
| ParseError (what : string)         (* a fatal parse that failed *)
| AttributeError
| KeyError (key : string)
| IndexError
| TypeError
| ValueError
| OverflowError.

Inductive Outcome (A : Type) : Type :=
| Val (a : A)
| Raise (e : Exn).
Arguments Val {A} a.
Arguments Raise {A} e.

Definition raised {A} (o : Outcome A) : bool :=
  match o with Val _ => false | Raise _ => true end.

Module Py.

(** Truth value of an object: [None], [False], zero, and the empty string,
    list and dictionary are false. *)
Definition truthy (v : JSON) : bool :=
  match v with
  | JNull => false
  | JBool b => b
  | JInt n => negb (Z.eqb n 0)
  | JFloat x => negb (PrimFloat.eqb x 0%float)
  | JStr s => negb (String.eqb s "")
  | JList l => match l with [] => false | _ => true end
  | JDict d => match d with [] => false | _ => true end
  end.

Fixpoint assoc (k : string) (d : list (string * JSON)) : option JSON :=
  match d with
  | [] => None
  | (k', v) :: d' => if String.eqb k k' then Some v else assoc k d'
  end.

(** [v.get(k)]: only a dictionary has the method. *)
Definition get (v : JSON) (k : string) : Outcome JSON :=
  match v with
  | JDict d => Val (default JNull (assoc k d))
  | _ => Raise AttributeError
  end.

(** [v[k]] for a string key [k]. *)
Definition getitem (v : JSON) (k : string) : Outcome JSON :=
  match v with
  | JDict d => match assoc k d with
               | Some x => Val x
               | None => Raise (KeyError k)
               end
  | _ => Raise TypeError
  end.

Fixpoint chars (s : string) : list JSON :=
  match s with
  | EmptyString => []
  | String c s' => JStr (String c EmptyString) :: chars s'
  end.

(** The items a [for] loop over [v] visits. *)
Definition iter (v : JSON) : Outcome (list JSON) :=
  match v with
  | JList l => Val l
  | JDict d => Val (JStr <$> d.*1)
  | JStr s => Val (chars s)
  | _ => Raise TypeError
  end.

(** [list(v.values())] *)
Definition values (v : JSON) : Outcome (list JSON) :=
  match v with
  | JDict d => Val d.*2
  | _ => Raise AttributeError
  end.

(** [float(n)] for an integer [n]: the nearest binary64 value, ties to
    even; [None] stands for the [OverflowError] of an integer beyond the
    range of a float. *)
Definition float_of_Z (n : Z) : option float :=
  match binary_normalize prec emax n 0 false with
  | S754_infinity _ => None
  | x => Some (SF2Prim x)
  end.

End Py.

(** ** Helpers of [youtube_dl/utils.py] *)

(** Modelled from the spec: [utils.int_or_none], which is not part of the
    two extractor files.  The extractors call it on the result of a regular
    expression search, a string or [None]; it gives the integer the string
    parses as, and [None] for [None], the empty string and any text that is
    not an integer. *)
Definition int_or_none (v : option string) : option Z :=
  match v with
  | None => None
  | Some s => if String.eqb s "" then None else PyStr.to_int s
  end.

(** Modelled from the spec: [utils.remove_end], which is not part of the two
    extractor files: [s] without the suffix [e] when it ends with it. *)
Definition remove_end (s e : string) : string :=
  if PyStr.endswith e s
  then PyStr.drop_last (String.length e) s
  else s.

Section FloatOrNone.

(** [float(s)] for a string [s], [None] for its [ValueError]: the parser
    of Python's float literals is taken as given. *)
Variable float_of_str : string → option float.

(** [float(v)] *)
Definition py_float (v : JSON) : Outcome float :=
  match v with
  | JInt n => match Py.float_of_Z n with
              | Some x => Val x
              | None => Raise OverflowError
              end
  | JFloat x => Val x
  | JBool b => Val (if b then 1%float else 0%float)
  | JStr s => match float_of_str s with
              | Some x => Val x
              | None => Raise ValueError
              end
  | JNull | JList _ | JDict _ => Raise TypeError
  end.

(** Modelled from the spec: [utils.float_or_none], which is not part of
    the two extractor files.  [float_or_none(v, scale)] is [None] for
    [None], else [float(v) * 1 / scale] in binary64 arithmetic (the value
    divided by the scale, its fraction kept), and [None] again when
    [float(v)] raises [ValueError] or [TypeError]. *)
Definition float_or_none (v : JSON) (scale : float) : Outcome (option float) :=
  match v with
  | JNull => Val None
  | _ => match py_float v with
         | Val x => Val (Some (x * 1 / scale)%float)
         | Raise ValueError | Raise TypeError => Val None
         | Raise e => Raise e
         end
  end.

End FloatOrNone.

(** ** What an extractor sees of the outside world *)

(** One playable variant, a Python dictionary: its [format_id] and [url]
    entries, and whatever else a manifest parser put into it. *)
Record Format : Type := {
  format_id : JSON;
  url : JSON;
  more : list (string * JSON);
}.

(** A subtitle track [{'url': u}]. *)
Record Subtitle : Type := { sub_url : JSON }.

(** The manifest parsers of the host library, with the keyword arguments
    the extractors pass them. *)
Inductive Manifest : Type :=
| M3U8 (ext : option string) (entry_protocol : string)
       (preference : option Z) (m3u8_id : JSON)
| F4M (f4m_id : JSON)
| MPD (mpd_id : JSON).

Inductive PostData : Type :=
| FormData (fields : list (string * option string)) (* urlencode_postdata *)
| JsonData (v : JSON).                               (* json.dumps(v).encode *)

Record Request : Type := {
  r_url : string;
  r_query : list (string * string);
  r_data : option PostData;
  r_headers : list (string * string);
}.

Record Cookie : Type := {
  c_domain : string;
  c_name : string;
  c_value : string;
}.

Record Response : Type := {
  body : string;
  set_cookies : list Cookie;
}.

(** The regular expressions of the two files, each with the flags and the
    group its call site asks for.  The line is that of the pattern. *)
Inductive Pattern : Type :=
| OpenGraph (prop : string)   (* common.py: _og_regexes(prop) *)
| CanvasTitle                 (* canvas.py 121 *)
| CanvasVideoId               (* canvas.py 128, group id *)
| VrtSavedResponse            (* canvas.py 202 *)
| VrtTitle                    (* canvas.py 230 *)
| VrtDescription              (* canvas.py 234 *)
| VrtSeasonTab                (* canvas.py 238 *)
| VrtSeasonOption             (* canvas.py 241 *)
| VrtEpisode                  (* canvas.py 251 *)
| VrtBroadcastDate            (* canvas.py 258 *)
| VierLoginError              (* vier.py 133 *)
| VierDataFile                (* vier.py 153 *)
| VierDescription             (* vier.py 180, group value *)
| VierDataProgram             (* vier.py 191, group value *)
| VierAflevering              (* vier.py 194 *)
| VierTag                     (* vier.py 195 *)
| VierVideoLink.              (* vier.py 264 *)

(** The collaborators the spec leaves to the host: the network, the stored
    credentials, Python's [re] and [json] modules, the HTML and date
    helpers and the manifest parsers. *)
Record Host : Type := {
  (** the answer to a request sent with the cookies of the jar, [None] for
      a transport error *)
  urlopen : Request → list Cookie → option Response;
  (** is the cookie sent to this URL *)
  cookie_applies : Cookie → string → bool;
  (** [_get_login_info()]: the stored user name and password *)
  login_info : option string * option string;
  (** the group asked for of the first match of the pattern in the text *)
  re_search : Pattern → string → option string;
  (** [re.findall] *)
  re_findall : Pattern → string → list string;
  clean_html : string → string;
  unescapeHTML : string → string;
  (** [json.loads], [None] for text that is not JSON *)
  json_loads : string → option JSON;
  (** [float(s)], [None] for its [ValueError] *)
  float_of_str : string → option float;
  (** [str(v)] of a float, a list or a dictionary *)
  py_repr : JSON → string;
  (** [utils.parse_iso8601] on a string *)
  iso8601 : string → option Z;
  (** the formats of a downloaded manifest, [None] when it does not parse *)
  parse_manifest : Manifest → string → string → option (list Format);
  (** the rank [_sort_formats] orders formats by *)
  format_rank : Format → Z;
}.

(** What happened during an extraction, oldest first. *)
Inductive Event : Type :=
| Sent (r : Request) (answered : bool)
| ReadLoginInfo
| Warning (msg : string)
| Printed (fs : list Format).

(** The mutable state of an extractor instance and its downloader:
    [_logged_in] is the attribute of [VierIE], [None] while it is unset. *)
Record World : Type := {
  log : list Event;
  cookiejar : list Cookie;
  _logged_in : option bool;
}.

Definition add_event (e : Event) (w : World) : World :=
  {| log := log w ++ [e]; cookiejar := cookiejar w; _logged_in := _logged_in w |}.

Definition add_cookies (cs : list Cookie) (w : World) : World :=
  {| log := log w; cookiejar := cs ++ cookiejar w; _logged_in := _logged_in w |}.

Definition set_logged_in (b : bool) (w : World) : World :=
  {| log := log w; cookiejar := cookiejar w; _logged_in := Some b |}.

(** ** The monad of extractor code: state, and exceptions that keep it *)

Definition M (A : Type) : Type := World → Outcome A * World.

#[global] Instance M_ret : MRet M := λ A a w, (Val a, w).

#[global] Instance M_bind : MBind M := λ A B f m w,
  match m w with
  | (Val a, w') => f a w'
  | (Raise e, w') => (Raise e, w')
  end.

Definition raise {A} (e : Exn) : M A := λ w, (Raise e, w).

Definition lift {A} (o : Outcome A) : M A := λ w, (o, w).

Definition emit (e : Event) : M unit := λ w, (Val (), add_event e w).

(** A [for] loop that extends an accumulator. *)
Fixpoint for_each {A B} (f : B → A → M B) (acc : B) (l : list A) : M B :=
  match l with
  | [] => mret acc
  | x :: l' => acc' ← f acc x; for_each f acc' l'
  end.

(** The pure fragment: exceptions without state. *)
#[global] Instance Outcome_ret : MRet Outcome := λ A a, Val a.

#[global] Instance Outcome_bind : MBind Outcome := λ A B f o,
  match o with
  | Val a => f a
  | Raise e => Raise e
  end.

(** ** The host library: [InfoExtractor] of [extractor/common.py] *)

(** The [default] argument of a search: not passed, or a value. *)
Inductive Default : Type :=
| NO_DEFAULT
| DefaultTo (v : option string).

Definition GET (u : string) : Request :=
  {| r_url := u; r_query := []; r_data := None; r_headers := [] |}.

Definition from_option (o : option string) : JSON :=
  match o with Some s => JStr s | None => JNull end.

Section InfoExtractor.

Variable host : Host.

(** ['%s' % v] *)
Definition py_str (v : JSON) : string :=
  match v with
  | JStr s => s
  | JNull => "None"
  | JBool true => "True"
  | JBool false => "False"
  | JInt n => PyStr.of_Z n
  | _ => py_repr host v
  end.

(** A URL handed to the downloader has to be a string; [TypeError] stands
    for the failure of the host library on any other value. *)
Definition as_url (v : JSON) : M string :=
  match v with
  | JStr s => mret s
  | _ => raise TypeError
  end.

(** Modelled from the spec: [report_warning] of the downloader, which is not
    part of the two extractor files. *)
Definition report_warning (msg : string) : M unit := emit (Warning msg).

(** Modelled from the spec: the Page Fetcher [_request_webpage], which is
    not part of the two extractor files.  The request goes out with the
    cookies of the jar, the cookies of the answer go into the jar; a
    transport error raises when the call is fatal (the default) and gives
    [None] with a warning otherwise. *)
Definition _request_webpage (r : Request) (errnote : string) (fatal : bool)
  : M (option Response) := λ w,
  match urlopen host r (cookiejar w) with
  | Some resp => (Val (Some resp), add_cookies (set_cookies resp) (add_event (Sent r true) w))
  | None =>
      let w' := add_event (Sent r false) w in
      if fatal then (Raise (TransportError errnote), w')
      else (Val None, add_event (Warning errnote) w')
  end.

(** Modelled from the spec: [_download_webpage], fatal, which is not part of
    the two extractor files: the text of the page. *)
Definition _download_webpage (r : Request) (errnote : string) : M string :=
  res ← _request_webpage r errnote true;
  match res with
  | Some resp => mret (body resp)
  | None => raise (TransportError errnote)
  end.

(** Modelled from the spec: [_parse_json], fatal, which is not part of the
    two extractor files.  (In canvas.py 204 the fourth positional argument,
    a string that is not empty, lands on [fatal].) *)
Definition _parse_json (text : string) : M JSON :=
  match json_loads host text with
  | Some v => mret v
  | None => raise (ParseError "JSON")
  end.

(** Modelled from the spec: [_download_json], fatal, which is not part of
    the two extractor files. *)
Definition _download_json (r : Request) : M JSON :=
  text ← _download_webpage r "Unable to download JSON metadata";
  _parse_json text.

(** Modelled from the spec: [_get_login_info], which is not part of the two
    extractor files: the stored credentials, [(None, None)] without any. *)
Definition _get_login_info : M (option string * option string) :=
  emit ReadLoginInfo;; mret (login_info host).

(** Modelled from the spec: [raise_login_required], which is not part of the
    two extractor files. *)
Definition raise_login_required {A} : M A := raise LoginRequired.

(** Modelled from the spec: [_get_cookies], which is not part of the two
    extractor files: the names of the cookies of the jar that go to [u]. *)
Definition _get_cookies (u : string) : M (list string) := λ w,
  (Val (c_name <$> filter (λ c, cookie_applies host c u = true) (cookiejar w)), w).

(** The first pattern of the list that matches. *)
Fixpoint search_first (ps : list Pattern) (text : string) : option string :=
  match ps with
  | [] => None
  | p :: ps' => match re_search host p text with
                | Some g => Some g
                | None => search_first ps' text
                end
  end.

(** Modelled from the spec: [_search_regex], which is not part of the two
    extractor files.  A match gives its group; without a match the default
    is returned when one was passed, else [RegexNotFoundError] is raised
    when the search is fatal (as it is unless the caller says otherwise),
    else a warning is reported and [None] returned. *)
Definition _search_regex (ps : list Pattern) (text name : string)
    (dflt : Default) (fatal : bool) : M (option string) :=
  match search_first ps text with
  | Some g => mret (Some g)
  | None =>
      match dflt with
      | DefaultTo v => mret v
      | NO_DEFAULT =>
          if fatal then raise (RegexNotFoundError name)
          else report_warning ("unable to extract " +:+ name);; mret None
      end
  end.

(** Modelled from the spec: [_html_search_regex], which is not part of the
    two extractor files: [_search_regex], and a result that is not false
    cleaned of its markup and stripped. *)
Definition _html_search_regex (ps : list Pattern) (text name : string)
    (dflt : Default) (fatal : bool) : M (option string) :=
  res ← _search_regex ps text name dflt fatal;
  match res with
  | Some r => if String.eqb r "" then mret res
              else mret (Some (PyStr.strip (clean_html host r)))
  | None => mret None
  end.

(** Modelled from the spec: [_og_search_property], which is not part of the
    two extractor files; [name] is [None] where the caller passes none. *)
Definition _og_search_property (prop text : string) (name : option string)
    (dflt : Default) (fatal : bool) : M (option string) :=
  escaped ← _search_regex [OpenGraph prop] text
              (default ("OpenGraph " +:+ prop) name) dflt fatal;
  mret (unescapeHTML host <$> escaped).

(** Modelled from the spec: [_og_search_title], which is not part of the two
    extractor files. *)
Definition _og_search_title (text : string) (dflt : Default) : M (option string) :=
  _og_search_property "title" text None dflt true.

(** Modelled from the spec: [_og_search_description], which is not part of
    the two extractor files: never fatal. *)
Definition _og_search_description (text : string) : M (option string) :=
  _og_search_property "description" text None NO_DEFAULT false.

(** Modelled from the spec: the manifest routines [_extract_m3u8_formats],
    [_extract_f4m_formats] and [_extract_mpd_formats], which are not part
    of the two extractor files.  The manifest is downloaded and parsed; a
    manifest that cannot be downloaded or parsed raises when the call is
    fatal (the default), and gives no format otherwise. *)
Definition _extract_manifest_formats (kind : Manifest) (manifest_url : JSON)
    (fatal : bool) : M (list Format) :=
  u ← as_url manifest_url;
  res ← _request_webpage (GET u) "Failed to download manifest" fatal;
  match res with
  | None => mret []
  | Some resp =>
      match parse_manifest host kind u (body resp) with
      | Some fs => mret fs
      | None => if fatal then raise (ParseError "manifest")
                else report_warning "Failed to parse manifest";; mret []
      end
  end.

(** Stable insertion of [f] into a list ordered by rank. *)
Fixpoint insert_by_rank (f : Format) (l : list Format) : list Format :=
  match l with
  | [] => [f]
  | g :: l' => if format_rank host f <=? format_rank host g
               then f :: g :: l'
               else g :: insert_by_rank f l'
  end.

Definition sort_by_rank (l : list Format) : list Format :=
  foldr insert_by_rank [] l.

(** Modelled from the spec: [_sort_formats], which is not part of the two
    extractor files: no format at all is the error [No video formats
    found], else the list is sorted by preference, equal ranks staying in
    the order of discovery. *)
Definition _sort_formats (formats : list Format) : M (list Format) :=
  match formats with
  | [] => raise NoVideoFormatsFound
  | _ => mret (sort_by_rank formats)
  end.

(** Modelled from the spec: [utils.parse_iso8601], which is not part of the
    two extractor files: [None] for [None]. *)
Definition parse_iso8601 (v : option string) : option Z :=
  match v with
  | Some s => iso8601 host s
  | None => None
  end.

End InfoExtractor.

(** ** canvas.py *)

(** The output record of [CanvasIE] and [VrtNUIE]; a key that was not set
    reads [None]. *)
Record InfoDict : Type := {
  id : JSON;
  display_id : string;
  formats : list Format;
  duration : option float;
  thumbnail : JSON;
  subtitles : gmap string (list Subtitle);
  title : option string;
  description : option string;
  season : option string;
  season_number : option Z;
  episode_number : option Z;
  release_date : option Z;
}.

(** canvas.py 132-135: [info.update] with the title and the description. *)
Definition update_title_description (info : InfoDict) (new_title : string)
    (new_description : option string) : InfoDict :=
  {| id := id info;
     display_id := display_id info;
     formats := formats info;
     duration := duration info;
     thumbnail := thumbnail info;
     subtitles := subtitles info;
     title := Some new_title;
     description := new_description;
     season := season info;
     season_number := season_number info;
     episode_number := episode_number info;
     release_date := release_date info |}.

(** canvas.py 271-278: [info.update] with the fields of an episode. *)
Definition update_episode (info : InfoDict) (new_title : string)
    (new_description new_season : option string)
    (new_season_number new_episode_number new_release_date : option Z)
  : InfoDict :=
  {| id := id info;
     display_id := display_id info;
     formats := formats info;
     duration := duration info;
     thumbnail := thumbnail info;
     subtitles := subtitles info;
     title := Some new_title;
     description := new_description;
     season := new_season;
     season_number := new_season_number;
     episode_number := new_episode_number;
     release_date := new_release_date |}.

(** The groups of [CanvasIE._VALID_URL] in a URL it matches. *)
Record CanvasMatch : Type := {
  cm_site_id : string;
  cm_id : string;
}.

Definition eq_str (v : JSON) (s : string) : bool :=
  match v with
  | JStr t => String.eqb t s
  | _ => false
  end.

(** [x.strip()] of a string or [None]. *)
Definition py_strip (x : option string) : M string :=
  match x with
  | Some s => mret (PyStr.strip s)
  | None => raise AttributeError
  end.

(** [a or b], [b] being evaluated only when [a] is false. *)
Definition py_or (a : option string) (b : M (option string)) : M (option string) :=
  match a with
  | Some s => if String.eqb s "" then b else mret a
  | None => b
  end.

(** canvas.py 247-248: a season above 1000 is a year. *)
Definition drop_year (season_number : option Z) : option Z :=
  match season_number with
  | Some n => if negb (n =? 0) && (1000 <? n) then None else season_number
  | None => None
  end.

(** canvas.py 262: the URL up to its query and fragment, without the
    slashes at its ends. *)
Definition clean_url (u : string) : string :=
  PyStr.strip_char "/" (PyStr.split_head "#" (PyStr.split_head "?" u)).

(** canvas.py 101-103: one step of the loop over [subtitleUrls]. *)
Definition add_subtitle (subtitles : gmap string (list Subtitle))
    (subtitle : JSON) : Outcome (gmap string (list Subtitle)) :=
  subtitle_url ← Py.get subtitle "url";
  if Py.truthy subtitle_url then
    subtitle_type ← Py.get subtitle "type";
    if eq_str subtitle_type "CLOSED"
    then mret (<["nl" := (default [] (subtitles !! "nl")
                           ++ [{| sub_url := subtitle_url |}])%list]> subtitles)
    else mret subtitles
  else mret subtitles.

Fixpoint add_subtitles (subtitles : gmap string (list Subtitle))
    (l : list JSON) : Outcome (gmap string (list Subtitle)) :=
  match l with
  | [] => mret subtitles
  | subtitle :: l' =>
      subtitles' ← add_subtitle subtitles subtitle;
      add_subtitles subtitles' l'
  end.

(** canvas.py 97-103 *)
Definition extract_subtitles (data : JSON) : Outcome (gmap string (list Subtitle)) :=
  subtitle_urls ← Py.get data "subtitleUrls";
  match subtitle_urls with
  | JList l => add_subtitles ∅ l
  | _ => mret ∅
  end.

Module CanvasIE.
Section CanvasIE.

Variable host : Host.

(** canvas.py 77-94: one step of the loop over [targetUrls]. *)
Definition resolve_target (formats : list Format) (target : JSON)
  : M (list Format) :=
  format_url ← lift (Py.get target "url");
  format_type ← lift (Py.get target "type");
  if negb (Py.truthy format_url) || negb (Py.truthy format_type) then
    mret formats
  else if eq_str format_type "HLS" then
    fs ← _extract_manifest_formats host
           (M3U8 (Some "mp4") "m3u8_native" (Some 0) format_type)
           format_url false;
    mret (formats ++ fs)%list
  else if eq_str format_type "HDS" then
    fs ← _extract_manifest_formats host (F4M format_type) format_url false;
    mret (formats ++ fs)%list
  else if eq_str format_type "MPEG_DASH" then
    fs ← _extract_manifest_formats host (MPD format_type) format_url false;
    mret (formats ++ fs)%list
  else
    mret (formats ++ [{| format_id := format_type; url := format_url;
                         more := [] |}])%list.

(** canvas.py 75-95: the format resolver. *)
Definition resolve_formats (data : JSON) : M (list Format) :=
  target_urls ← lift (Py.getitem data "targetUrls");
  targets ← lift (Py.iter target_urls);
  formats ← for_each resolve_target [] targets;
  _sort_formats host formats.

(** canvas.py 109: the duration, from the milliseconds of the API. *)
Definition extract_duration (data : JSON) : Outcome (option float) :=
  d ← Py.get data "duration";
  float_or_none (float_of_str host) d 1000%float.

(** canvas.py 72 *)
Definition asset_url (site_id : string) (video_id : JSON) : string :=
  "https://mediazone.vrt.be/api/v1/" +:+ site_id +:+ "/assets/"
  +:+ py_str host video_id.

Definition _extract_info (site_id : string) (video_id : JSON)
    (display_id : string) : M InfoDict :=
  data ← _download_json host (GET (asset_url site_id video_id));
  formats ← resolve_formats data;
  subtitles ← lift (extract_subtitles data);
  duration ← lift (extract_duration data);
  thumbnail ← lift (Py.get data "posterImageUrl");
  mret {| id := video_id;
          display_id := display_id;
          formats := formats;
          duration := duration;
          thumbnail := thumbnail;
          subtitles := subtitles;
          title := None; description := None; season := None;
          season_number := None; episode_number := None;
          release_date := None |}.

Definition _real_extract (url : string) (mobj : CanvasMatch) : M InfoDict :=
  let site_id := cm_site_id mobj in
  let display_id := cm_id mobj in
  webpage ← _download_webpage host (GET url) "Unable to download webpage";
  found ← _search_regex host [CanvasTitle] webpage "title" (DefaultTo None) true;
  title ← py_or found (_og_search_title host webpage NO_DEFAULT);
  title ← py_strip title;
  description ← _og_search_description host webpage;
  video_id ← _html_search_regex host [CanvasVideoId] webpage "video id"
               NO_DEFAULT true;
  info ← _extract_info site_id (from_option video_id) display_id;
  mret (update_title_description info title description).

End CanvasIE.
End CanvasIE.

Module VrtNUIE.

Definition _APIKEY : string :=
  "3_0Z2HujMtiWq_pkAjgnS2Md2E11a1AwZjYiBETtwNE-EoEHDINgtnvcAOpNgmrVGy".
Definition _CONTEXT_ID : string := "R1070628488".

Definition login_url : string := "https://accounts.eu1.gigya.com/accounts.login".
Definition saved_response_url : string :=
  "https://accounts.eu1.gigya.com/socialize.getSavedResponse".
Definition token_url : string := "https://token.vrt.be".

(** canvas.py 176-183: the credential POST. *)
Definition login_request (username password : option string) : Request :=
  {| r_url := login_url;
     r_query := [("context", _CONTEXT_ID); ("saveResponseID", _CONTEXT_ID)];
     r_data := Some (FormData [("APIKey", Some _APIKEY);
                               ("targetEnv", Some "jssdk");
                               ("loginID", username);
                               ("password", password);
                               ("authMode", Some "cookie");
                               ("context", Some _CONTEXT_ID)]);
     r_headers := [] |}.

(** canvas.py 190-199 *)
Definition saved_response_request : Request :=
  {| r_url := saved_response_url;
     r_query := [("APIKey", _APIKEY); ("saveResponseID", _CONTEXT_ID);
                 ("context", _CONTEXT_ID); ("format", "jsonp");
                 ("callback", "DUMMY")];
     r_data := None;
     r_headers := [] |}.

(** canvas.py 208-221 *)
Definition token_request (payload : JSON) : Request :=
  {| r_url := token_url;
     r_query := [];
     r_data := Some (JsonData payload);
     r_headers := [("Content-Type", "application/json");
                   ("Origin", "https://www.vrt.be");
                   ("Referer", "https://www.vrt.be/vrtnu/a-z/")] |}.

(** The groups of [VrtNUIE._VALID_URL] in a URL it matches. *)
Record VrtMatch : Type := { vm_id : string }.

Section VrtNUIE.

Variable host : Host.

Definition _login : M unit :=
  '(username, password) ← _get_login_info host;
  (match username with
   | None => raise_login_required
   | Some _ => mret ()
   end);;
  _request_webpage host (login_request username password)
    "Unable to log in" true;;
  gigya_cookies ← _get_cookies host "https://accounts.eu1.gigya.com";
  (if negb (bool_decide ("ucid" ∈ gigya_cookies))
      || negb (bool_decide ("gmid" ∈ gigya_cookies))
   then raise (LoginFailed "Unable to login: missing cookies")
   else mret ());;
  saved_response ← _download_webpage host saved_response_request
                     "Unable to log in";
  auth_info_js ← _search_regex host [VrtSavedResponse] saved_response
                   "auth_info_js" NO_DEFAULT true;
  auth_info_js ← match auth_info_js with
                 | Some js => mret js
                 | None => raise TypeError
                 end;
  auth_info ← _parse_json host auth_info_js;
  payload ← lift (uid ← Py.getitem auth_info "UID";
                  uidsig ← Py.getitem auth_info "UIDSignature";
                  ts ← Py.getitem auth_info "signatureTimestamp";
                  profile ← Py.getitem auth_info "profile";
                  email ← Py.getitem profile "email";
                  mret (JDict [("uid", uid); ("uidsig", uidsig);
                               ("ts", ts); ("email", email)]));
  (* When requesting a token, no actual token is returned, but the
     necessary cookies are set. *)
  _request_webpage host (token_request payload) "Could not get a token" true;;
  mret ().

Definition _real_initialize : M unit := _login.

Definition _real_extract (url : string) (mobj : VrtMatch) : M InfoDict :=
  let display_id := vm_id mobj in
  webpage ← _download_webpage host (GET url) "Unable to download webpage";
  found ← _search_regex host [VrtTitle] webpage "title" (DefaultTo None) true;
  title ← py_strip found;
  description ← _html_search_regex host [VrtDescription] webpage
                  "description" (DefaultTo None) true;
  season ← _html_search_regex host [VrtSeasonTab; VrtSeasonOption] webpage
             "season" (DefaultTo None) true;
  let season_number := int_or_none season in
  (* Sometimes the season is the year, so don't use it as the season number *)
  let season_number := drop_year season_number in
  episode ← _html_search_regex host [VrtEpisode] webpage "episode_number"
              (DefaultTo None) true;
  let episode_number := int_or_none episode in
  broadcast ← _html_search_regex host [VrtBroadcastDate] webpage
                "release_date" (DefaultTo None) true;
  let release_date := parse_iso8601 host broadcast in
  (* If there's a ? or a # in the URL, remove them and everything after *)
  let securevideo_url := clean_url url +:+ ".securevideo.json" in
  json ← _download_json host (GET securevideo_url);
  (* There is only one entry, but with an unknown key, so just get the
     first one *)
  video_id ← lift (vs ← Py.values json;
                   match vs with
                   | first :: _ => Py.get first "mzid"
                   | [] => Raise IndexError
                   end);
  info ← CanvasIE._extract_info host "vrtvideo" video_id display_id;
  mret (update_episode info title description season season_number
          episode_number release_date).

End VrtNUIE.
End VrtNUIE.

(** ** Early return *)

(** The body of a Python function whose [return] is not its last
    statement: a statement goes on to the next, returns a value from the
    function, or raises. *)
Inductive Flow (R A : Type) : Type :=
| Next (a : A)
| Return (r : R)
| Throw (e : Exn).
Arguments Next {R A} a.
Arguments Return {R A} r.
Arguments Throw {R A} e.

Definition Body (R A : Type) : Type := World → Flow R A * World.

#[global] Instance Body_ret R : MRet (Body R) := λ A a w, (Next a, w).

#[global] Instance Body_bind R : MBind (Body R) := λ A B f m w,
  match m w with
  | (Next a, w') => f a w'
  | (Return r, w') => (Return r, w')
  | (Throw e, w') => (Throw e, w')
  end.

(** [return r] *)
Definition return_ {R A} (r : R) : Body R A := λ w, (Return r, w).

(** A statement without [return] in it. *)
Definition stmt {R A} (m : M A) : Body R A := λ w,
  match m w with
  | (Val a, w') => (Next a, w')
  | (Raise e, w') => (Throw e, w')
  end.

(** The call of a function with this body. *)
Definition call {R} (b : Body R R) : M R := λ w,
  match b w with
  | (Next r, w') | (Return r, w') => (Val r, w')
  | (Throw e, w') => (Raise e, w')
  end.

(** ** vier.py *)

(** Modelled from the spec: [url_result] of [extractor/common.py], which is
    not part of the two extractor files: a reference to a video page and
    the extractor to hand it to. *)
Record UrlResult : Type := {
  ur_url : string;
  ur_ie_key : string;
}.

(** Modelled from the spec: [playlist_result] of [extractor/common.py],
    which is not part of the two extractor files: the listing output. *)
Record Playlist : Type := {
  entries : list UrlResult;
  playlist_id : string;
}.

Definition url_result (u ie : string) : UrlResult :=
  {| ur_url := u; ur_ie_key := ie |}.

Definition playlist_result (entries : list UrlResult) (playlist_id : string)
  : Playlist :=
  {| entries := entries; playlist_id := playlist_id |}.

(** [utils.remove_end] on a string or [None]. *)
Definition remove_end_opt (s : option string) (e : string) : option string :=
  (λ s, remove_end s e) <$> s.

Module VierIE.

(** vier.py 155 *)
Definition authorization_code : string :=
  String.concat ""
    ["eyJraWQiOiJCSHZsMjdjNzdGR2J5YWNyTk8xXC9yWXBPTjlzMFFPbjhtUTdz";
     "QnA5eCtvbz0iLCJhbGciOiJSUzI1NiJ9.eyJzdWIiOiIxYzI2MThiNy1lN2V";
     "hLTRlN2EtYmRjMy1jNTJmNzUyOWRkM2MiLCJ3ZWJzaXRlIjoie1widXJsXCI";
     "6XCJodHRwOlwvXC93d3cudmllci5iZVwvdmlkZW9cL2RlLXNvbGxpY2l0YXR";
     "pZVwvMjAxN1wvZGUtc29sbGljaXRhdGllLWFmbGV2ZXJpbmctOFwiLFwic2l";
     "0ZU5hbWVcIjpcIlZJRVJcIixcInRpdGxlXCI6XCJEZSBTb2xsaWNpdGF0aWU";
     "gLSBBZmxldmVyaW5nIDhcIixcImFjdGlvblwiOlwid2F0Y2hcIn0iLCJlbWF";
     "pbF92ZXJpZmllZCI6dHJ1ZSwiYmlydGhkYXRlIjoiMTJcLzEyXC8xOTEyIiw";
     "iZ2VuZGVyIjoibSIsImlzcyI6Imh0dHBzOlwvXC9jb2duaXRvLWlkcC5ldS1";
     "3ZXN0LTEuYW1hem9uYXdzLmNvbVwvZXUtd2VzdC0xX2RWaVNzS001WSIsImN";
     "1c3RvbTpwb3N0YWxfY29kZSI6IjEwNDMiLCJjb2duaXRvOnVzZXJuYW1lIjo";
     "ibWVqbzJqYXh4OWo0cW1tOTh2IiwiYXVkIjoiNnMxaDg1MXM4dXBsY281aDZ";
     "tcWgxamFjOG0iLCJldmVudF9pZCI6IjA0YmEyNTljLTU5YzgtMTFlOS04NjA";
     "yLWYzY2U2Yjc1OWI5MCIsInRva2VuX3VzZSI6ImlkIiwiY3VzdG9tOnNlbGx";
     "pZ2VudElkIjoiODE0NDQwIiwiYXV0aF90aW1lIjoxNTU0NzA1MTIyLCJleHA";
     "iOjE1Njk2ODMwNTgsImlhdCI6MTU2OTY3OTQ1OCwiZW1haWwiOiJkZXdpbmF";
     "udCt2aWVyMkBnbWFpbC5jb20ifQ.GXl6Kan4K2rXPYynfJJnGEBjB4AV9mU2";
     "NEhjq1-tZb3JxJRQyzcwxLmNKTbZ6uki_7XCBHCNIB5D_I3I2ZnkGdKDfZn0";
     "QQ9-qBYRTBSYLkKMucAhYbU3uGfLYjWCXpMJQ9MxXGczEwNcblDvtK6cVp5b";
     "rvL991DnTchMcdvCkXAhMcKzyPl2nZgh9K3QM7bkuLVuP70NX7QYjshAeusy";
     "SQPZCGUfRDjhIKCsihF_8gqg5GwxF6fWuOgwZR-zge-9Nii4730PGnR_txyZ";
     "8Cg9wA7tvpSU8-ApOimEDjz--PVQtQceGYVOfKu_BAVUzfdyOG70gowsPf2e";
     "SWCBj06eqg"].

(** The groups of [VierIE._VALID_URL] in a URL it matches; a group that
    took no part in the match is [None]. *)
Record VierMatch : Type := {
  vm_site : string;
  vm_display_id : option string;
  vm_id : option string;
  vm_embed_id : option string;
}.

(** The output record of [VierIE]. *)
Record VierInfo : Type := {
  id : option string;
  display_id : option string;
  title : option string;
  description : option string;
  thumbnail : option string;
  upload_date : option Z;
  series : option string;
  episode_number : option Z;
  tags : list string;
  formats : list Format;
  duration : option Z;
}.

(** [a or b] on strings that may be [None]. *)
Definition or_else (a b : option string) : option string :=
  match a with
  | Some s => if String.eqb s "" then b else a
  | None => b
  end.

Definition is_set (a : option string) : bool :=
  match a with
  | Some s => negb (String.eqb s "")
  | None => false
  end.

(** vier.py 122-130: the credential POST of the login. *)
Definition login_request (site : string) (username password : option string)
  : Request :=
  {| r_url := "http://www." +:+ site +:+ ".be/user/login";
     r_query := [];
     r_data := Some (FormData [("form_id", Some "user_login");
                               ("name", username);
                               ("pass", password)]);
     r_headers := [("Content-Type", "application/x-www-form-urlencoded")] |}.

(** vier.py 157-160 *)
Definition content_request (video_id : option string) : Request :=
  {| r_url := "https://api.viervijfzes.be/content/"
              +:+ match video_id with Some v => v | None => "None" end;
     r_query := [];
     r_data := None;
     r_headers := [("authorization", authorization_code)] |}.

Section VierIE.

Variable host : Host.

Definition _real_initialize : M unit := λ w, (Val (), set_logged_in false w).

Definition _login (site : string) : M unit :=
  call (
    (return_ () : Body () ());;
    (* TODO redo *)
    '(username, password) ← stmt (_get_login_info host);
    (if bool_decide (username = None) || bool_decide (password = None)
     then return_ () else mret ());;
    login_page ← stmt (_download_webpage host
                         (login_request site username password)
                         "Unable to log in");
    login_error ← stmt (_html_search_regex host [VierLoginError] login_page
                          "login error" (DefaultTo None) true);
    if is_set login_error
    then stmt (report_warning ("Unable to log in: " +:+ default "" login_error))
    else stmt (λ w, (Val (), set_logged_in true w))).

Definition _real_extract (url : string) (mobj : VierMatch) : M VierInfo :=
  let embed_id := vm_embed_id mobj in
  let display_id := or_else (vm_display_id mobj) embed_id in
  let video_id := or_else (vm_id mobj) embed_id in
  let site := vm_site mobj in
  logged_in ← (λ w, (match _logged_in w with
                     | Some b => Val b
                     | None => Raise AttributeError
                     end, w));
  (if negb logged_in then _login site else mret ());;
  webpage ← _download_webpage host (GET url) "Unable to download webpage";
  video_id ← _search_regex host [VierDataFile] webpage "video id"
               NO_DEFAULT true;
  json ← _download_json host (content_request video_id);
  playlist_url ← lift (video ← Py.getitem json "video"; Py.getitem video "S");
  let duration := None in
  formats ← _extract_manifest_formats host (M3U8 None "m3u8" None JNull)
              playlist_url true;
  formats ← _sort_formats host formats;
  emit (Printed formats);;
  og_title ← _og_search_title host webpage (DefaultTo display_id);
  let title := remove_end_opt og_title " | Vier" in
  description ← _html_search_regex host [VierDescription] webpage
                  "description" (DefaultTo None) true;
  thumbnail ← _og_search_property host "image:url" webpage
                (Some "thumbnail URL") (DefaultTo None) false;
  let upload_date := None in
  series ← _search_regex host [VierDataProgram] webpage "series"
             (DefaultTo None) true;
  episode ← match title with
            | Some t => _search_regex host [VierAflevering] t
                          "episode number" (DefaultTo None) true
            | None => raise TypeError
            end;
  let episode_number := int_or_none episode in
  let tags := re_findall host VierTag webpage in
  mret (Build_VierInfo video_id display_id title description thumbnail
          upload_date series episode_number tags formats duration).

End VierIE.
End VierIE.

Module VierVideosIE.

(** The groups of [VierVideosIE._VALID_URL] in a URL it matches. *)
Record VideosMatch : Type := {
  vm_site : string;
  vm_program : string;
  vm_page : option string;
}.

(** vier.py 258 *)
Definition page_url (site program : string) (current_page_id : Z) : string :=
  "http://www." +:+ site +:+ ".be/" +:+ program +:+ "/videos?page="
  +:+ PyStr.of_Z current_page_id.

(** The truth value of an integer or [None]. *)
Definition is_true (page_id : option Z) : bool :=
  match page_id with
  | Some n => negb (n =? 0)
  | None => false
  end.

Section VierVideosIE.

Variable host : Host.

(** vier.py 261-264 *)
Definition page_entries (site current_page : string) : list UrlResult :=
  (λ video_url, url_result ("http://www." +:+ site +:+ ".be" +:+ video_url) "Vier")
  <$> re_findall host VierVideoLink current_page.

(** vier.py 256-267: the loop over [itertools.count(start_page)], which has
    no bound of its own; [fuel] bounds the number of pages, and [None] is
    the loop still running when it is used up. *)
Fixpoint walk (fuel : nat) (site program : string) (page_id : option Z)
    (current_page_id : Z) (entries : list UrlResult)
  : M (option (list UrlResult)) :=
  match fuel with
  | O => mret None
  | S fuel' =>
      current_page ← _download_webpage host
                       (GET (page_url site program current_page_id))
                       "Unable to download webpage";
      let entries := (entries ++ page_entries site current_page)%list in
      if is_true page_id || negb (PyStr.contains ">Meer<" current_page)
      then mret (Some entries)
      else walk fuel' site program page_id (current_page_id + 1) entries
  end.

Definition _real_extract (fuel : nat) (url : string) (mobj : VideosMatch)
  : M (option Playlist) :=
  let program := vm_program mobj in
  let site := vm_site mobj in
  let page_id := vm_page mobj in
  '(page_id, start_page, playlist_id) ←
    (if VierIE.is_set page_id then
       match PyStr.to_int (default "" page_id) with
       | Some n => mret (Some n, n, program +:+ "-page" +:+ PyStr.of_Z n)
       | None => raise ValueError
       end
     else mret (None, 0, program));
  entries ← walk fuel site program page_id start_page [];
  mret ((λ entries, playlist_result entries playlist_id) <$> entries).

End VierVideosIE.
End VierVideosIE.

(** ** A small world to run the extractors in *)

Module Demo.

Definition hls_format : Format :=
  {| format_id := JStr "HLS-1200"; url := JStr "http://cdn.example/1200.m3u8";
     more := [("preference", JInt 0)] |}.

Definition targets : list JSON :=
  [JDict [("url", JStr "http://cdn.example/master.m3u8"); ("type", JStr "HLS")];
   JDict [("url", JStr "http://cdn.example/broken.mpd");
          ("type", JStr "MPEG_DASH")];
   JDict [("url", JStr "http://cdn.example/video.mp4"); ("type", JStr "MP4")];
   JDict [("url", JStr "http://cdn.example/untyped.mp4")];
   JDict [("type", JStr "HDS")]].

Definition tracks : list (list (string * JSON)) :=
  [[("url", JStr "http://cdn.example/nl.vtt"); ("type", JStr "CLOSED")];
   [("url", JStr "http://cdn.example/open.vtt"); ("type", JStr "OPEN")];
   [("url", JStr ""); ("type", JStr "CLOSED")];
   [("url", JStr "http://cdn.example/nl2.vtt"); ("type", JStr "CLOSED")]].

Definition api_data : JSON :=
  JDict [("targetUrls", JList targets);
         ("subtitleUrls", JList (JDict <$> tracks));
         ("duration", JInt 49020);
         ("posterImageUrl", JStr "http://cdn.example/poster.jpg")].

Definition canvas_url : string :=
  "http://www.canvas.be/video/de-afspraak/najaar-2015/de-afspraak-veilt-voor-de-warmste-week".
Definition vrtnu_url : string :=
  "https://www.vrt.be/vrtnu/a-z/trapped/1/trapped-s1a4/".
Definition vier_url : string :=
  "http://www.vier.be/planb/videos/het-wordt-warm-de-moestuin/16129".

(** The pages of the demo web: URL and text. *)
Definition pages : list (string * string) :=
  [(canvas_url, "canvas page");
   ("https://mediazone.vrt.be/api/v1/canvas/assets/mz-ast-5e5f90b6", "api json");
   ("https://mediazone.vrt.be/api/v1/vrtvideo/assets/md-ast-01e7d193", "api json");
   ("http://cdn.example/master.m3u8", "m3u8 manifest");
   (vrtnu_url, "vrtnu page");
   ("https://www.vrt.be/vrtnu/a-z/trapped/1/trapped-s1a4.securevideo.json",
    "securevideo json");
   (vier_url, "vier page");
   ("https://api.viervijfzes.be/content/a1b2c3", "content json");
   ("http://www.vier.be/demoestuin/videos?page=0", "page 0 >Meer<");
   ("http://www.vier.be/demoestuin/videos?page=1", "page 1 >Meer<");
   ("http://www.vier.be/demoestuin/videos?page=2", "page 2 >Meer<");
   ("http://www.vier.be/demoestuin/videos?page=3", "page 3");
   ("http://www.vier.be/demoestuin/videos?page=6", "page 6 >Meer<");
   ("http://www.vier.be/demoestuin/videos?page=7", "page 7")].

Fixpoint lookup {A} (k : string) (l : list (string * A)) : option A :=
  match l with
  | [] => None
  | (k', v) :: l' => if String.eqb k k' then Some v else lookup k l'
  end.

(** The identity provider sets its two cookies for the password [secret]
    only. *)
Definition demo_urlopen (r : Request) (jar : list Cookie) : option Response :=
  if String.eqb (r_url r) VrtNUIE.login_url then
    match r_data r with
    | Some (FormData fields) =>
        if bool_decide (lookup "password" fields = Some (Some "secret"))
        then Some {| body := "";
                     set_cookies := [{| c_domain := "gigya.com"; c_name := "ucid";
                                        c_value := "u" |};
                                     {| c_domain := "gigya.com"; c_name := "gmid";
                                        c_value := "g" |}] |}
        else Some {| body := ""; set_cookies := [] |}
    | _ => None
    end
  else if String.eqb (r_url r) VrtNUIE.saved_response_url then
    Some {| body := "saved response"; set_cookies := [] |}
  else if String.eqb (r_url r) VrtNUIE.token_url then
    Some {| body := ""; set_cookies := [{| c_domain := "vrt.be";
                                           c_name := "X-VRT-Token";
                                           c_value := "t" |}] |}
  else (λ text, {| body := text; set_cookies := [] |}) <$> lookup (r_url r) pages.

Definition demo_search (p : Pattern) (text : string) : option string :=
  lookup text
    match p with
    | CanvasTitle => [("canvas page", " De afspraak veilt voor de Warmste Week ")]
    | CanvasVideoId => [("canvas page", "mz-ast-5e5f90b6")]
    | VrtSavedResponse => [("saved response", "auth info")]
    | VrtTitle => [("vrtnu page", "Trapped")]
    | VrtSeasonTab => [("vrtnu page", "2015")]
    | VrtEpisode => [("vrtnu page", "4")]
    | VierDataFile => [("vier page", "a1b2c3")]
    | VierDataProgram => [("vier page", "Plan B")]
    | _ => []
    end.

Definition demo_findall (p : Pattern) (text : string) : list string :=
  default []
    (lookup text
       match p with
       | VierVideoLink => [("page 0 >Meer<", ["/demoestuin/videos/a/1"; "/demoestuin/videos/b/2"]);
                           ("page 1 >Meer<", ["/demoestuin/videos/c/3"]);
                           ("page 2 >Meer<", []);
                           ("page 3", ["/demoestuin/videos/d/4"]);
                           ("page 6 >Meer<", ["/demoestuin/videos/e/5"]);
                           ("page 7", ["/demoestuin/videos/f/6"])]
       | _ => []
       end).

Definition demo_json (text : string) : option JSON :=
  lookup text
    [("api json", api_data);
     ("securevideo json",
      JDict [("trapped-s1a4", JDict [("mzid", JStr "md-ast-01e7d193")])]);
     ("content json",
      JDict [("video", JDict [("S", JStr "http://cdn.example/master.m3u8")])]);
     ("auth info",
      JDict [("UID", JStr "uid-1"); ("UIDSignature", JStr "sig");
             ("signatureTimestamp", JStr "1489574042");
             ("profile", JDict [("email", JStr "viewer@example.org")])])].

Definition demo_parse (kind : Manifest) (u text : string) : option (list Format) :=
  match kind with
  | M3U8 _ _ _ _ => if String.eqb text "m3u8 manifest" then Some [hls_format] else None
  | _ => None
  end.

Definition host (credentials : option string * option string) : Host :=
  {| urlopen := demo_urlopen;
     cookie_applies := λ c u, PyStr.contains (c_domain c) u;
     login_info := credentials;
     re_search := demo_search;
     re_findall := demo_findall;
     clean_html := λ s, s;
     unescapeHTML := λ s, s;
     json_loads := demo_json;
     float_of_str := λ _, None;
     py_repr := λ _, "";
     iso8601 := λ _, None;
     parse_manifest := demo_parse;
     format_rank := λ f, match Py.assoc "preference" (more f) with
                         | Some (JInt n) => n
                         | _ => -1
                         end |}.

Definition anonymous : Host := host (None, None).

Definition canvas_match : CanvasMatch :=
  {| cm_site_id := "canvas";
     cm_id := "de-afspraak-veilt-voor-de-warmste-week" |}.

Definition vrtnu_match : VrtNUIE.VrtMatch :=
  {| VrtNUIE.vm_id := "trapped-s1a4" |}.

Definition vier_match : VierIE.VierMatch :=
  {| VierIE.vm_site := "vier";
     VierIE.vm_display_id := Some "het-wordt-warm-de-moestuin";
     VierIE.vm_id := Some "16129";
     VierIE.vm_embed_id := None |}.

(** The listing of a program, with the page asked for in the URL. *)
Definition videos_match (page : option string) : VierVideosIE.VideosMatch :=
  {| VierVideosIE.vm_site := "vier";
     VierVideosIE.vm_program := "demoestuin";
     VierVideosIE.vm_page := page |}.

(** The text of a listing page of the program, empty when there is none. *)
Definition page_text (i : nat) : string :=
  default "" (lookup (VierVideosIE.page_url "vier" "demoestuin" (Z.of_nat i)) pages).

(** A fresh extractor: nothing logged, no cookie, [_logged_in] unset. *)
Definition start : World :=
  {| log := []; cookiejar := []; _logged_in := None |}.

End Demo.

(** ** Notions the properties are stated with *)

(** The [url] and the [type] of an entry of [targetUrls] or [subtitleUrls],
    [None] when the entry has none. *)
Definition entry_url (d : list (string * JSON)) : JSON :=
  default JNull (Py.assoc "url" d).

Definition entry_type (d : list (string * JSON)) : JSON :=
  default JNull (Py.assoc "type" d).

(** A value the API is meant to put there: a string, or nothing. *)
Definition str_or_none (v : JSON) : bool :=
  match v with
  | JNull | JStr _ => true
  | _ => false
  end.

Definition well_typed_entry (d : list (string * JSON)) : bool :=
  str_or_none (entry_url d) && str_or_none (entry_type d).

(** A subtitle entry that is kept: a URL that is not false, of type CLOSED. *)
Definition retained (d : list (string * JSON)) : bool :=
  Py.truthy (entry_url d) && eq_str (entry_type d) "CLOSED".

Definition kept_tracks (tracks : list (list (string * JSON))) : list Subtitle :=
  (λ d, {| sub_url := entry_url d |}) <$> filter (λ d, retained d = true) tracks.

(** The tracks under the one language: no key at all without a track. *)
Definition grouped (ts : list Subtitle) : gmap string (list Subtitle) :=
  match ts with
  | [] => ∅
  | _ => {["nl" := ts]}
  end.

Definition is_list (v : JSON) : bool :=
  match v with
  | JList _ => true
  | _ => false
  end.

(** An entry of [targetUrls] as the API is meant to send it: a dictionary
    whose [url] and [type] are strings, where it has them. *)
Definition is_target (t : JSON) : bool :=
  match t with
  | JDict d => well_typed_entry d
  | _ => false
  end.

(** The manifest parser that [CanvasIE] hands an entry of this type to, and
    the arguments it passes; [None] for a type that is taken as it is. *)
Definition manifest_of (format_type : string) : option Manifest :=
  if String.eqb format_type "HLS"
  then Some (M3U8 (Some "mp4") "m3u8_native" (Some 0) (JStr format_type))
  else if String.eqb format_type "HDS" then Some (F4M (JStr format_type))
  else if String.eqb format_type "MPEG_DASH" then Some (MPD (JStr format_type))
  else None.

(** The manifest at [u] cannot be downloaded, or does not parse. *)
Definition manifest_fails (host : Host) (kind : Manifest) (u : string)
    (jar : list Cookie) : Prop :=
  match urlopen host (GET u) jar with
  | Some resp => parse_manifest host kind u (body resp) = None
  | None => True
  end.

(** Every format a manifest parser of the host gives has a URL. *)
Definition parsers_give_urls (host : Host) : Prop :=
  ∀ kind u text fs,
    parse_manifest host kind u text = Some fs →
    Forall (λ f, Py.truthy (url f) = true) fs.

(** The host serves the listing pages 0 to [n] of a program, whatever the
    cookies: page [i] has the text [page_text i]. *)
Definition serves_pages (host : Host) (site program : string)
    (page_text : nat → string) (n : nat) : Prop :=
  ∀ (i : nat) jar, (i ≤ n)%nat →
    ∃ resp, urlopen host (GET (VierVideosIE.page_url site program (Z.of_nat i))) jar
            = Some resp
            ∧ body resp = page_text i.

(** The requests for the listing pages [first], [first + 1], ... in order,
    [count] of them, each answered. *)
Definition page_requests (site program : string) (first count : nat) : list Event :=
  (λ i : nat, Sent (GET (VierVideosIE.page_url site program (Z.of_nat i))) true)
  <$> seq first count.

(** The links of the listing pages [first], [first + 1], ... in order. *)
Definition pages_entries (host : Host) (site : string) (page_text : nat → string)
    (first count : nat) : list UrlResult :=
  concat ((λ i : nat, VierVideosIE.page_entries host site (page_text i))
          <$> seq first count).

(** Modelled from the spec: the Session State of the authentication
    handshake, which the code keeps in the cookies the token endpoint sets
    and not in a variable of its own.  The session is logged in once the
    token exchange, the last step of the handshake, was answered. *)
Inductive SessionState : Type :=
| LoggedOut
| LoggedIn.

Definition is_token_exchange (e : Event) : bool :=
  match e with
  | Sent r true => String.eqb (r_url r) VrtNUIE.token_url
  | _ => false
  end.

Definition session_state (w : World) : SessionState :=
  if existsb is_token_exchange (log w) then LoggedIn else LoggedOut.

(** The names of the cookies the jar holds for the identity provider once
    the answer [resp] to the credential POST is in. *)
Definition gigya_cookies_after (host : Host) (resp : Response) (w : World)
  : list string :=
  c_name <$> filter (λ c, cookie_applies host c "https://accounts.eu1.gigya.com" = true)
               (set_cookies resp ++ cookiejar w).

(** An event that neither reads nor sends credentials: no look at the
    stored login, no request with a body. *)
Definition quiet (e : Event) : bool :=
  match e with
  | ReadLoginInfo => false
  | Sent r _ => match r_data r with None => true | Some _ => false end
  | Warning _ | Printed _ => true
  end.

(** [w'] comes after [w] with the same [_logged_in] and quiet events only. *)
Definition quietly (w w' : World) : Prop :=
  _logged_in w' = _logged_in w
  ∧ ∃ evs, log w' = log w ++ evs ∧ Forall (λ e, quiet e = true) evs.

(** The session of [w'] is logged out if that of [w] is. *)
Definition stays_logged_out (w w' : World) : Prop :=
  session_state w = LoggedOut → session_state w' = LoggedOut.

(** A relation between the world before and after that every step of a
    certain kind keeps: it holds of no step and of chains of steps, of new
    cookies, and of the events [ok] lets through. *)
Class Frame (R : World → World → Prop) (ok : Event → bool) : Prop := {
  frame_refl : ∀ w, R w w;
  frame_trans : ∀ w1 w2 w3, R w1 w2 → R w2 w3 → R w1 w3;
  frame_cookies : ∀ cs w, R w (add_cookies cs w);
  frame_event : ∀ e w, ok e = true → R w (add_event e w);
  frame_warning : ∀ msg, ok (Warning msg) = true;
}.

(** However [m] ends, the world after is related to the world before. *)
Definition preserves (R : World → World → Prop) {A} (m : M A) : Prop :=
  ∀ w, R w (m w).2.

(** When [m] raises, the world after is related to the world before. *)
Definition preserves_on_raise (R : World → World → Prop) {A} (m : M A) : Prop :=
  ∀ w e w', m w = (Raise e, w') → R w w'.

(** The world after [VierIE] has extracted the URLs of [jobs] one after the
    other, whatever each extraction ended with. *)
Definition extract_all (host : Host) (jobs : list (string * VierIE.VierMatch))
    (w : World) : World :=
  foldl (λ w job, (VierIE._real_extract host job.1 job.2 w).2) w jobs.

(** What a search with [default=None] gives: the group of the first pattern
    that matches, [None] when none does. *)
Definition html_search (host : Host) (ps : list Pattern) (text : string)
  : option string :=
  match search_first host ps text with
  | Some r => if String.eqb r "" then Some r
              else Some (PyStr.strip (clean_html host r))
  | None => None
  end.

(** The OpenGraph property of a page, [None] when the page has none. *)
Definition og_search (host : Host) (prop text : string) : option string :=
  unescapeHTML host <$> re_search host (OpenGraph prop) text.

(** The host answers the request with [resp], whatever the cookies. *)
Definition answers (host : Host) (r : Request) (resp : Response) : Prop :=
  ∀ jar, urlopen host r jar = Some resp.

(** The world once the page [resp] has been downloaded from [u]. *)
Definition downloaded (u : string) (resp : Response) (w : World) : World :=
  add_cookies (set_cookies resp) (add_event (Sent (GET u) true) w).

(** canvas.py 265-270: the part of [VrtNUIE._real_extract] that gets the
    media: the video id from the securevideo document, then the asset. *)
Definition vrtnu_media (host : Host) (url name : string) : M InfoDict :=
  json ← _download_json host (GET (clean_url url +:+ ".securevideo.json"));
  video_id ← lift (vs ← Py.values json;
                   match vs with
                   | first :: _ => Py.get first "mzid"
                   | [] => Raise IndexError
                   end);
  CanvasIE._extract_info host "vrtvideo" video_id name.

(** vier.py 157-173: the part of [VierIE._real_extract] that gets the
    formats of the video found on the page. *)
Definition vier_media (host : Host) (video_id : option string) : M (list Format) :=
  json ← _download_json host (VierIE.content_request video_id);
  playlist_url ← lift (video ← Py.getitem json "video"; Py.getitem video "S");
  formats ← _extract_manifest_formats host (M3U8 None "m3u8" None JNull)
              playlist_url true;
  formats ← _sort_formats host formats;
  emit (Printed formats);;
  mret formats.

(** * Properties *)

(** ** The helpers on examples *)

Example strip_example : PyStr.strip "  De afspraak " = "De afspraak".
Proof. reflexivity. Qed.

Example to_int_examples :
  PyStr.to_int "2015" = Some 2015
  ∧ PyStr.to_int " 3 " = Some 3
  ∧ PyStr.to_int "-12" = Some (-12)
  ∧ PyStr.to_int "2015-2016" = None
  ∧ PyStr.to_int "" = None.
Proof. repeat split. Qed.

Example of_Z_examples :
  PyStr.of_Z 0 = "0" ∧ PyStr.of_Z 153 = "153" ∧ PyStr.of_Z (-7) = "-7".
Proof. repeat split. Qed.

Example remove_end_examples :
  remove_end "Plan B | Vier" " | Vier" = "Plan B"
  ∧ remove_end "Plan B" " | Vier" = "Plan B".
Proof. split; reflexivity. Qed.

Example clean_url_example :
  clean_url "https://www.vrt.be/vrtnu/a-z/trapped/1/trapped-s1a4/?x=1#top"
  = "https://www.vrt.be/vrtnu/a-z/trapped/1/trapped-s1a4".
Proof. reflexivity. Qed.

Example contains_examples :
  PyStr.contains ">Meer<" "<a href=x>Meer</a>" = true
  ∧ PyStr.contains ">Meer<" "<a href=x>Minder</a>" = false.
Proof. split; reflexivity. Qed.

Example page_url_example :
  VierVideosIE.page_url "vier" "demoestuin" 6
  = "http://www.vier.be/demoestuin/videos?page=6".
Proof. reflexivity. Qed.

Example float_of_Z_examples :
  Py.float_of_Z 49020 = Some 49020%float
  ∧ Py.float_of_Z (2 ^ 1024) = None.
Proof. split; vm_compute; reflexivity. Qed.

(** ** Running monadic code *)

Lemma bind_run {A B} (m : M A) (f : A → M B) (w : World) :
  (m ≫= f) w = match m w with
               | (Val a, w') => f a w'
               | (Raise e, w') => (Raise e, w')
               end.
Proof. reflexivity. Qed.

Lemma bind_Val {A B} (m : M A) (f : A → M B) (w w' : World) (b : B) :
  (m ≫= f) w = (Val b, w') →
  ∃ a w1, m w = (Val a, w1) ∧ f a w1 = (Val b, w').
Proof.
  rewrite bind_run. destruct (m w) as [[a|e] w1]; [eauto | discriminate].
Qed.

Lemma bind_step {A B} (m : M A) (f : A → M B) (w w1 : World) (a : A) :
  m w = (Val a, w1) → (m ≫= f) w = f a w1.
Proof. intros H. rewrite bind_run, H. reflexivity. Qed.

Lemma bind_raise {A B} (m : M A) (f : A → M B) (w w1 : World) (e : Exn) :
  m w = (Raise e, w1) → (m ≫= f) w = (Raise e, w1).
Proof. intros H. rewrite bind_run, H. reflexivity. Qed.

Lemma lift_Val {A} (o : Outcome A) (w w' : World) (a : A) :
  lift o w = (Val a, w') → o = Val a ∧ w' = w.
Proof. unfold lift. intros [= -> ->]. auto. Qed.

Lemma ret_Val {A} (a b : A) (w w' : World) :
  (mret a : M A) w = (Val b, w') → a = b ∧ w' = w.
Proof. intros [= -> ->]. auto. Qed.

Lemma obind_Val {A B} (o : Outcome A) (f : A → Outcome B) (b : B) :
  o ≫= f = Val b → ∃ a, o = Val a ∧ f a = Val b.
Proof. destruct o; [eauto | discriminate]. Qed.

(** Peel the binds of a run that ended with a value. *)
Ltac inv_run H :=
  repeat (let a := fresh "a" in
          let w := fresh "w" in
          let Ha := fresh "Ha" in
          apply bind_Val in H as (a & w & Ha & H)).

(** ** The fields of the output record *)

Section Fields.

Variable host : Host.

(** What a successful [_extract_info] has done: it downloaded the asset
    data and computed each field from it. *)
Lemma extract_info_inv site_id video_id name w info w' :
  CanvasIE._extract_info host site_id video_id name w = (Val info, w') →
  ∃ data w1,
    _download_json host (GET (CanvasIE.asset_url host site_id video_id)) w
      = (Val data, w1)
    ∧ CanvasIE.resolve_formats host data w1 = (Val (formats info), w')
    ∧ extract_subtitles data = Val (subtitles info)
    ∧ CanvasIE.extract_duration host data = Val (duration info)
    ∧ Py.get data "posterImageUrl" = Val (thumbnail info)
    ∧ id info = video_id ∧ display_id info = name.
Proof.
  unfold CanvasIE._extract_info. intros H. inv_run H.
  apply lift_Val in Ha1 as [Hs ->], Ha2 as [Hd ->], Ha3 as [Hp ->].
  apply ret_Val in H as [<- ->].
  exists a, w0. simpl. auto 10.
Qed.

End Fields.

(** ** Season numbers (canvas.py 244-248) *)

Lemma drop_year_spec (n : Z) :
  drop_year (Some n) = if 1000 <? n then None else Some n.
Proof.
  unfold drop_year. destruct (Z.eqb_spec n 0) as [->|]; simpl; [reflexivity|].
  reflexivity.
Qed.

Lemma season_number_of_string s n :
  PyStr.to_int s = Some n →
  drop_year (int_or_none (Some s)) = if 1000 <? n then None else Some n.
Proof.
  intros H. unfold int_or_none.
  destruct (String.eqb_spec s "") as [->|_]; [discriminate|].
  rewrite H. apply drop_year_spec.
Qed.

Lemma vrtnu_real_extract_season host url mobj w info w' :
  VrtNUIE._real_extract host url mobj w = (Val info, w') →
  season_number info = drop_year (int_or_none (season info)).
Proof.
  unfold VrtNUIE._real_extract. intros H. inv_run H.
  apply ret_Val in H as [<- _]. reflexivity.
Qed.

(** C5: a season string that parses as an integer above 1000 leaves the
    [season_number] of the output record of [VrtNUIE] absent, any other
    integer is the season number; 2015 gives [None] and 3 gives 3. *)
Theorem season_above_1000_is_dropped host url mobj w info w' s n :
  VrtNUIE._real_extract host url mobj w = (Val info, w') →
  season info = Some s →
  PyStr.to_int s = Some n →
  season_number info = (if 1000 <? n then None else Some n)
  ∧ drop_year (int_or_none (Some "2015")) = None
  ∧ drop_year (int_or_none (Some "3")) = Some 3.
Proof.
  intros Hrun Hs Hn. split; [|split; reflexivity].
  rewrite (vrtnu_real_extract_season _ _ _ _ _ _ Hrun), Hs.
  by apply season_number_of_string.
Qed.

(** ** Duration (canvas.py 109) *)

(** C6, as amended: the duration of the output record is the millisecond
    value of the API divided by 1000 in floating point, its fraction kept:
    49020 gives 49.02.  Converting the result again divides it by 1000
    again: 49.02 gives 0.04902, not 49.02. *)
Theorem duration_is_milliseconds_over_1000 host site_id video_id name w info w' :
  CanvasIE._extract_info host site_id video_id name w = (Val info, w') →
  ∃ data w1,
    _download_json host (GET (CanvasIE.asset_url host site_id video_id)) w
      = (Val data, w1)
    ∧ (∀ n x, Py.get data "duration" = Val (JInt n) →
              Py.float_of_Z n = Some x →
              duration info = Some (x * 1 / 1000)%float)
    ∧ CanvasIE.extract_duration host (JDict [("duration", JInt 49020)])
        = Val (Some 49.02%float)
    ∧ CanvasIE.extract_duration host (JDict [("duration", JFloat 49.02)])
        = Val (Some 0.04902%float).
Proof.
  intros H. apply extract_info_inv in H as (data & w1 & Hd & _ & _ & Hdur & _).
  exists data, w1. split; [done|]. split; [|split; reflexivity].
  intros n x Hget Hx. unfold CanvasIE.extract_duration in Hdur.
  rewrite Hget in Hdur. simpl in Hdur. rewrite Hx in Hdur. congruence.
Qed.

(** C6, as stated, fails: 49020 is converted to 49.02, and 49.02 to
    0.04902: converting the output of the conversion does not give the
    same value. *)
Lemma duration_conversion_not_idempotent :
  let f : string → option float := λ _, None in
  float_or_none f (JInt 49020) 1000 = Val (Some 49.02%float)
  ∧ float_or_none f (JFloat 49.02) 1000 = Val (Some 0.04902%float)
  ∧ ¬ (∀ (ms : Z) (x : float),
         float_or_none f (JInt ms) 1000 = Val (Some x) →
         float_or_none f (JFloat x) 1000 = Val (Some x)).
Proof.
  intros f. split; [reflexivity|]. split; [reflexivity|].
  intros H. specialize (H 49020 49.02%float eq_refl).
  apply (f_equal (λ o, match o with
                       | Val (Some y) => PrimFloat.eqb y 49.02
                       | _ => false
                       end)) in H.
  vm_compute in H. discriminate.
Qed.

(** ** Subtitles (canvas.py 97-103) *)

Lemma add_subtitle_dict subs d :
  add_subtitle subs (JDict d)
  = Val (if retained d
         then <["nl" := default [] (subs !! "nl") ++ [{| sub_url := entry_url d |}]]> subs
         else subs).
Proof.
  unfold add_subtitle, retained, entry_url, entry_type. simpl.
  destruct (Py.truthy _); simpl; [|reflexivity].
  destruct (eq_str _ _); reflexivity.
Qed.

Lemma add_subtitles_spec tracks : ∀ subs,
  add_subtitles subs (JDict <$> tracks)
  = Val match kept_tracks tracks with
        | [] => subs
        | ts => <["nl" := default [] (subs !! "nl") ++ ts]> subs
        end.
Proof.
  induction tracks as [|d tracks IH]; intros subs; [reflexivity|].
  rewrite fmap_cons. simpl. rewrite add_subtitle_dict. simpl.
  rewrite IH. unfold kept_tracks. rewrite filter_cons.
  case_decide as Hr.
  - rewrite Hr, fmap_cons.
    destruct (_ <$> filter _ tracks) as [|t ts]; [reflexivity|].
    rewrite lookup_insert_eq, insert_insert_eq. simpl.
    by rewrite <- app_assoc.
  - apply not_true_is_false in Hr. rewrite Hr. reflexivity.
Qed.

Lemma extract_subtitles_list data tracks :
  Py.get data "subtitleUrls" = Val (JList (JDict <$> tracks)) →
  extract_subtitles data = Val (grouped (kept_tracks tracks)).
Proof.
  intros H. unfold extract_subtitles. rewrite H. simpl.
  rewrite add_subtitles_spec. unfold grouped.
  destruct (kept_tracks tracks); [reflexivity|].
  rewrite lookup_empty. simpl. by rewrite insert_empty.
Qed.

Lemma extract_subtitles_not_list data v :
  Py.get data "subtitleUrls" = Val v → is_list v = false →
  extract_subtitles data = Val ∅.
Proof.
  intros H Hv. unfold extract_subtitles. rewrite H. simpl.
  by destruct v.
Qed.

Lemma retained_iff d :
  str_or_none (entry_url d) = true →
  retained d = true
  ↔ ∃ u, entry_url d = JStr u ∧ u ≠ "" ∧ entry_type d = JStr "CLOSED".
Proof.
  intros Hu. unfold retained. rewrite andb_true_iff. split.
  - intros [Ht Hc]. destruct (entry_url d) as [| | | |u| |]; try discriminate.
    exists u. split; [done|]. split.
    + intros ->. discriminate.
    + destruct (entry_type d) as [| | | |t| |]; try discriminate.
      simpl in Hc. apply String.eqb_eq in Hc. by subst.
  - intros (u & -> & Hne & ->). split; [|reflexivity].
    simpl. destruct (String.eqb_spec u ""); done.
Qed.

(** C9: the subtitles of the output record hold the retained tracks of the
    [subtitleUrls] list, in their order, under the one key nl; a track is
    retained exactly when its URL is not empty and its type is CLOSED; a
    [subtitleUrls] that is not a list leaves the mapping empty. *)
Theorem subtitles_grouped_under_nl host site_id video_id name w info w' :
  CanvasIE._extract_info host site_id video_id name w = (Val info, w') →
  ∃ data w1 v,
    _download_json host (GET (CanvasIE.asset_url host site_id video_id)) w
      = (Val data, w1)
    ∧ Py.get data "subtitleUrls" = Val v
    ∧ (∀ tracks, v = JList (JDict <$> tracks) →
         subtitles info = grouped (kept_tracks tracks)
         ∧ (∀ k, k ≠ "nl" → subtitles info !! k = None)
         ∧ ∀ d, well_typed_entry d = true →
             retained d = true
             ↔ ∃ u, entry_url d = JStr u ∧ u ≠ "" ∧ entry_type d = JStr "CLOSED")
    ∧ (is_list v = false → subtitles info = ∅).
Proof.
  intros H. apply extract_info_inv in H as (data & w1 & Hd & _ & Hs & _).
  assert (∃ v, Py.get data "subtitleUrls" = Val v) as [v Hv].
  { unfold extract_subtitles in Hs. apply obind_Val in Hs as (v & Hv & _). eauto. }
  exists data, w1, v. split; [done|]. split; [done|]. split.
  - intros tracks ->.
    rewrite (extract_subtitles_list _ _ Hv) in Hs. injection Hs as <-.
    split; [done|]. split.
    + intros k Hk. unfold grouped. destruct (kept_tracks tracks).
      * apply lookup_empty.
      * by rewrite lookup_singleton_ne.
    + intros d Hd'. apply retained_iff.
      unfold well_typed_entry in Hd'. by apply andb_true_iff in Hd' as [? _].
  - intros Hl. rewrite (extract_subtitles_not_list _ _ Hv Hl) in Hs. congruence.
Qed.

(** ** The format resolver (canvas.py 75-95) *)

Section Resolver.

Variable host : Host.

(** A manifest that is not fatal never raises; it always leaves a trace,
    and gives no format when it fails. *)
Lemma extract_manifest_nonfatal kind u w :
  ∃ fs w',
    _extract_manifest_formats host kind (JStr u) false w = (Val fs, w')
    ∧ (length (log w) < length (log w'))%nat
    ∧ (manifest_fails host kind u (cookiejar w) → fs = [])
    ∧ (∀ f, f ∈ fs → ∃ text fs', parse_manifest host kind u text = Some fs' ∧ f ∈ fs').
Proof.
  unfold _extract_manifest_formats, manifest_fails, as_url.
  rewrite bind_run. simpl. rewrite bind_run. unfold _request_webpage.
  destruct (urlopen host (GET u) (cookiejar w)) as [resp|] eqn:Hopen.
  - destruct (parse_manifest host kind u (body resp)) as [fs|] eqn:Hparse.
    + exists fs. eexists. split; [reflexivity|]. simpl. rewrite length_app. simpl.
      split; [lia|]. split; [done|]. eauto.
    + eexists [], _. split; [reflexivity|]. simpl. rewrite !length_app. simpl.
      split; [lia|]. split; [done|]. intros f Hf. by apply elem_of_nil in Hf.
  - eexists [], _. split; [reflexivity|]. simpl. rewrite !length_app. simpl.
    split; [lia|]. split; [done|]. intros f Hf. by apply elem_of_nil in Hf.
Qed.

Lemma resolve_target_dict formats d :
  CanvasIE.resolve_target host formats (JDict d)
  = if negb (Py.truthy (entry_url d)) || negb (Py.truthy (entry_type d))
    then mret formats
    else match entry_type d with
         | JStr ty =>
             match manifest_of ty with
             | Some kind =>
                 fs ← _extract_manifest_formats host kind (entry_url d) false;
                 mret (formats ++ fs)
             | None =>
                 mret (formats ++ [{| format_id := entry_type d;
                                      url := entry_url d; more := [] |}])
             end
         | _ => mret (formats ++ [{| format_id := entry_type d;
                                     url := entry_url d; more := [] |}])
         end.
Proof.
  unfold CanvasIE.resolve_target, entry_url, entry_type, manifest_of.
  change (Py.get (JDict d) "url") with (Val (default JNull (Py.assoc "url" d))).
  change (Py.get (JDict d) "type") with (Val (default JNull (Py.assoc "type" d))).
  generalize (default JNull (Py.assoc "url" d)) as u.
  generalize (default JNull (Py.assoc "type" d)) as t. intros t u.
  change (lift (Val u) ≫= ?f) with (f u).
  change (lift (Val t) ≫= ?f) with (f t). cbv beta.
  destruct (negb (Py.truthy u) || negb (Py.truthy t)); [reflexivity|].
  destruct t as [| | | |ty| |]; try reflexivity.
  unfold eq_str.
  destruct (String.eqb ty "HLS"); [reflexivity|].
  destruct (String.eqb ty "HDS"); [reflexivity|].
  destruct (String.eqb ty "MPEG_DASH"); reflexivity.
Qed.

Lemma typed_truthy_str v :
  str_or_none v = true → Py.truthy v = true → ∃ s, v = JStr s ∧ s ≠ "".
Proof.
  destruct v as [| | | |s| |]; try discriminate. intros _ H.
  exists s. split; [done|]. intros ->. discriminate.
Qed.

Lemma guard_false u t :
  negb (Py.truthy u) || negb (Py.truthy t) = false →
  Py.truthy u = true ∧ Py.truthy t = true.
Proof. destruct (Py.truthy u), (Py.truthy t); auto. Qed.

(** A well-typed entry never raises: it extends the formats found so far. *)
Lemma resolve_target_total formats d w :
  well_typed_entry d = true →
  ∃ fs w', CanvasIE.resolve_target host formats (JDict d) w
           = (Val (formats ++ fs), w').
Proof.
  intros Hd. apply andb_true_iff in Hd as [Hu Ht].
  rewrite resolve_target_dict.
  destruct (negb _ || negb _) eqn:Hg.
  { exists [], w. by rewrite app_nil_r. }
  apply guard_false in Hg as [Hu' Ht'].
  destruct (typed_truthy_str _ Hu Hu') as (u & -> & _).
  destruct (typed_truthy_str _ Ht Ht') as (ty & -> & _).
  destruct (manifest_of ty) as [kind|]; [|by eauto].
  destruct (extract_manifest_nonfatal kind u w) as (fs & w' & Hrun & _).
  exists fs, w'. by rewrite (bind_step _ _ _ _ _ Hrun).
Qed.

(** A manifest entry whose manifest fails is skipped. *)
Lemma resolve_target_skips formats d u ty kind w :
  entry_url d = JStr u → u ≠ "" →
  entry_type d = JStr ty → manifest_of ty = Some kind →
  manifest_fails host kind u (cookiejar w) →
  ∃ w', CanvasIE.resolve_target host formats (JDict d) w = (Val formats, w').
Proof.
  intros Hu Hne Ht Hk Hfail. rewrite resolve_target_dict, Hu, Ht, Hk.
  assert (Py.truthy (JStr u) = true) as ->.
  { simpl. by destruct (String.eqb_spec u ""). }
  assert (Py.truthy (JStr ty) = true) as ->.
  { simpl. destruct (String.eqb_spec ty "") as [->|]; [discriminate|done]. }
  simpl.
  destruct (extract_manifest_nonfatal kind u w) as (fs & w' & Hrun & _ & Hnil & _).
  exists w'. rewrite (bind_step _ _ _ _ _ Hrun), (Hnil Hfail).
  by rewrite app_nil_r.
Qed.

(** An entry is passed over, with no request made and no format added,
    exactly when its URL or its type is missing. *)
Lemma resolve_target_dropped_iff formats d w :
  well_typed_entry d = true →
  CanvasIE.resolve_target host formats (JDict d) w = (Val formats, w)
  ↔ Py.truthy (entry_url d) = false ∨ Py.truthy (entry_type d) = false.
Proof.
  intros Hd. apply andb_true_iff in Hd as [Hu Ht].
  rewrite resolve_target_dict. split.
  - destruct (negb _ || negb _) eqn:Hg.
    { intros _. destruct (Py.truthy (entry_url d)); [|by left].
      destruct (Py.truthy (entry_type d)); [discriminate|by right]. }
    apply guard_false in Hg as [Hu' Ht'].
    destruct (typed_truthy_str _ Hu Hu') as (u & -> & _).
    destruct (typed_truthy_str _ Ht Ht') as (ty & -> & _).
    destruct (manifest_of ty) as [kind|].
    + destruct (extract_manifest_nonfatal kind u w) as (fs & w' & Hrun & Hlog & _).
      rewrite (bind_step _ _ _ _ _ Hrun). intros [= _ ->]. lia.
    + intros [= H]. apply (f_equal length) in H.
      rewrite length_app in H. simpl in H. lia.
  - intros [H|H]; rewrite H; simpl; [reflexivity|].
    by rewrite orb_true_r.
Qed.

(** The formats of an entry have a URL when those of the parsers have. *)
Lemma resolve_target_urls formats t w fs w' :
  parsers_give_urls host →
  CanvasIE.resolve_target host formats t w = (Val fs, w') →
  Forall (λ f, Py.truthy (url f) = true) formats →
  Forall (λ f, Py.truthy (url f) = true) fs.
Proof.
  intros Hp Hrun Hacc.
  destruct t as [| | | | | |d]; try discriminate.
  rewrite resolve_target_dict in Hrun.
  destruct (negb _ || negb _) eqn:Hg.
  { by apply ret_Val in Hrun as [<- _]. }
  apply guard_false in Hg as [Hu' _].
  assert (Forall (λ f, Py.truthy (url f) = true)
            (formats ++ [{| format_id := entry_type d; url := entry_url d;
                            more := [] |}])) as Hplain.
  { apply Forall_app. split; [done|]. by constructor. }
  destruct (entry_type d) as [| | | |ty| |];
    try (by apply ret_Val in Hrun as [<- _]).
  destruct (manifest_of ty) as [kind|];
    [|by apply ret_Val in Hrun as [<- _]].
  apply bind_Val in Hrun as (fs' & w1 & Hm & Hrun).
  apply ret_Val in Hrun as [<- _].
  apply Forall_app. split; [done|].
  destruct (entry_url d) as [| | | |u| |]; try discriminate.
  destruct (extract_manifest_nonfatal kind u w) as (fs0 & w0 & Hrun0 & _ & _ & Hin).
  rewrite Hrun0 in Hm. injection Hm as -> ->.
  apply Forall_forall. intros f Hf.
  destruct (Hin f Hf) as (text & fs1 & Hparse & Hf1).
  specialize (Hp _ _ _ _ Hparse). rewrite Forall_forall in Hp. auto.
Qed.

Lemma for_each_total targets :
  Forall (λ t, is_target t = true) targets →
  ∀ acc w, ∃ fs w',
    for_each (CanvasIE.resolve_target host) acc targets w = (Val (acc ++ fs), w').
Proof.
  induction 1 as [|t targets Ht _ IH]; intros acc w.
  { exists [], w. by rewrite app_nil_r. }
  destruct t as [| | | | | |d]; try discriminate. simpl in Ht.
  destruct (resolve_target_total acc d w Ht) as (fs & w1 & Hrun).
  destruct (IH (acc ++ fs) w1) as (fs' & w' & Hrest).
  exists (fs ++ fs'), w'. simpl.
  rewrite (bind_step _ _ _ _ _ Hrun), Hrest. by rewrite app_assoc.
Qed.

Lemma for_each_urls targets :
  parsers_give_urls host →
  ∀ acc w fs w',
    for_each (CanvasIE.resolve_target host) acc targets w = (Val fs, w') →
    Forall (λ f, Py.truthy (url f) = true) acc →
    Forall (λ f, Py.truthy (url f) = true) fs.
Proof.
  intros Hp. induction targets as [|t targets IH]; intros acc w fs w' Hrun Hacc.
  { by apply ret_Val in Hrun as [<- _]. }
  simpl in Hrun. apply bind_Val in Hrun as (acc' & w1 & Hstep & Hrun).
  eapply IH; [exact Hrun|]. eapply resolve_target_urls; eauto.
Qed.

Lemma insert_by_rank_perm f l : insert_by_rank host f l ≡ₚ f :: l.
Proof.
  induction l as [|g l IH]; simpl; [done|].
  destruct (_ <=? _); [done|]. rewrite IH. apply Permutation_swap.
Qed.

Lemma sort_by_rank_perm l : sort_by_rank host l ≡ₚ l.
Proof.
  induction l as [|f l IH]; simpl; [done|].
  change (foldr (insert_by_rank host) [] l) with (sort_by_rank host l).
  by rewrite insert_by_rank_perm, IH.
Qed.

End Resolver.

(** C1: on a list of well-typed entries the loop of the format resolver
    never raises: an HLS, HDS or MPEG_DASH entry whose manifest cannot be
    downloaded or parsed is skipped and the loop goes on.  The resolver
    raises exactly when the loop has found no format at all, as it does on
    the empty list, and the error then is that no video format was found. *)
Theorem resolver_raises_only_without_formats host data targets w :
  Py.getitem data "targetUrls" = Val (JList targets) →
  Forall (λ t, is_target t = true) targets →
  (∃ formats w',
     for_each (CanvasIE.resolve_target host) [] targets w = (Val formats, w')
     ∧ CanvasIE.resolve_formats host data w
       = (match formats with
          | [] => Raise NoVideoFormatsFound
          | _ => Val (sort_by_rank host formats)
          end, w')
     ∧ (targets = [] → formats = []))
  ∧ (∀ acc d u ty kind w0,
       entry_url d = JStr u → u ≠ "" →
       entry_type d = JStr ty → manifest_of ty = Some kind →
       manifest_fails host kind u (cookiejar w0) →
       ∃ w1, CanvasIE.resolve_target host acc (JDict d) w0 = (Val acc, w1)).
Proof.
  intros Hdata Htargets. split.
  - destruct (for_each_total host targets Htargets [] w) as (formats & w' & Hloop).
    simpl in Hloop. exists formats, w'. split; [done|]. split.
    + unfold CanvasIE.resolve_formats. rewrite Hdata.
      change (lift (Val ?v) ≫= ?f) with (f v). cbv beta.
      change (Py.iter (JList targets)) with (Val targets).
      change (lift (Val ?v) ≫= ?f) with (f v). cbv beta.
      rewrite (bind_step _ _ _ _ _ Hloop). by destruct formats.
    + intros ->. simpl in Hloop. by apply ret_Val in Hloop as [<- _].
  - intros acc d u ty kind w0. apply resolve_target_skips.
Qed.

(** C7, as amended: an entry of [targetUrls] is passed over, adding no
    format, sending no request and raising nothing, exactly when its URL or
    its type is missing or empty; and when the manifest parsers give
    formats with a URL, every format the resolver returns has a URL. *)
Theorem entry_dropped_iff_url_or_type_missing host :
  (∀ formats d w,
     well_typed_entry d = true →
     CanvasIE.resolve_target host formats (JDict d) w = (Val formats, w)
     ↔ Py.truthy (entry_url d) = false ∨ Py.truthy (entry_type d) = false)
  ∧ (parsers_give_urls host →
     ∀ data w formats w',
       CanvasIE.resolve_formats host data w = (Val formats, w') →
       Forall (λ f, Py.truthy (url f) = true) formats).
Proof.
  split; [apply resolve_target_dropped_iff|].
  intros Hp data w formats w' Hrun.
  unfold CanvasIE.resolve_formats in Hrun. inv_run Hrun.
  unfold _sort_formats in Hrun. destruct a1 as [|f fs] eqn:E; [discriminate|].
  apply ret_Val in Hrun as [<- _]. rewrite sort_by_rank_perm.
  eapply for_each_urls; eauto.
Qed.

(** C7, as stated, fails: an entry with a URL and no type is passed over,
    though it does not lack both. *)
Lemma entry_with_url_alone_is_dropped :
  let d := [("url", JStr "http://cdn.example/untyped.mp4")] in
  CanvasIE.resolve_target Demo.anonymous [] (JDict d) Demo.start
  = (Val [], Demo.start)
  ∧ Py.truthy (entry_url d) = true
  ∧ ¬ (∀ host formats d w,
         well_typed_entry d = true →
         CanvasIE.resolve_target host formats (JDict d) w = (Val formats, w)
         ↔ Py.truthy (entry_url d) = false ∧ Py.truthy (entry_type d) = false).
Proof.
  intros d. split; [reflexivity|]. split; [reflexivity|].
  intros H.
  destruct (H Demo.anonymous [] d Demo.start eq_refl) as [Hdrop _].
  destruct (Hdrop eq_refl) as [Hurl _]. discriminate.
Qed.

(** ** The pagination walker (vier.py 241-269) *)

Section Walker.

Variable host : Host.

Lemma download_webpage_ok r errnote w resp :
  urlopen host r (cookiejar w) = Some resp →
  _download_webpage host r errnote w
  = (Val (body resp), add_cookies (set_cookies resp) (add_event (Sent r true) w)).
Proof.
  intros H. unfold _download_webpage. rewrite bind_run.
  unfold _request_webpage. rewrite H. reflexivity.
Qed.

(** From page [i] on, the walk without an explicit page fetches every page
    up to the first one without the marker, and no other. *)
Lemma walk_to_last site program page_text n (d : nat) :
  serves_pages host site program page_text n →
  (∀ i, (i < n)%nat → PyStr.contains ">Meer<" (page_text i) = true) →
  PyStr.contains ">Meer<" (page_text n) = false →
  ∀ (i fuel : nat) acc w,
    (i + d)%nat = n → (d < fuel)%nat →
    ∃ w', VierVideosIE.walk host fuel site program None (Z.of_nat i) acc w
          = (Val (Some (acc ++ pages_entries host site page_text i (S d))), w')
          ∧ log w' = log w ++ page_requests site program i (S d).
Proof.
  intros Hserve Hmore Hlast.
  induction d as [|d IH]; intros i fuel acc w Hi Hfuel;
    (destruct fuel as [|fuel]; [lia|]);
    destruct (Hserve i (cookiejar w) ltac:(lia)) as (resp & Hopen & Hbody);
    simpl; rewrite (bind_step _ _ _ _ _ (download_webpage_ok _ _ _ _ Hopen));
    rewrite Hbody.
  - replace i with n by lia. rewrite Hlast. simpl.
    unfold pages_entries. simpl. rewrite app_nil_r.
    eexists. split; reflexivity.
  - rewrite (Hmore i) by lia. simpl.
    replace (Z.of_nat i + 1) with (Z.of_nat (S i)) by lia.
    edestruct (IH (S i) fuel) as (w' & Hrun & Hlog); [lia|lia|].
    exists w'. split.
    + rewrite Hrun. unfold pages_entries. simpl. by rewrite <- !app_assoc.
    + rewrite Hlog. simpl. unfold page_requests. simpl.
      by rewrite <- app_assoc.
Qed.

End Walker.

(** C2: without an explicit page the walker fetches the pages 0, 1, 2, ...
    in order and stops at the first one whose text lacks the marker: when
    that is page [n], exactly the pages 0 to [n] are requested, for any
    bound above [n] on the number of pages, and the entries are the links
    of these pages in the order of discovery, under the program name. *)
Theorem walker_stops_at_first_page_without_marker
    host url mobj page_text (n fuel : nat) w :
  VierVideosIE.vm_page mobj = None →
  serves_pages host (VierVideosIE.vm_site mobj) (VierVideosIE.vm_program mobj)
    page_text n →
  (∀ i, (i < n)%nat → PyStr.contains ">Meer<" (page_text i) = true) →
  PyStr.contains ">Meer<" (page_text n) = false →
  (n < fuel)%nat →
  ∃ w',
    VierVideosIE._real_extract host fuel url mobj w
    = (Val (Some (playlist_result
                    (pages_entries host (VierVideosIE.vm_site mobj) page_text 0 (S n))
                    (VierVideosIE.vm_program mobj))), w')
    ∧ log w' = log w ++ page_requests (VierVideosIE.vm_site mobj)
                          (VierVideosIE.vm_program mobj) 0 (S n).
Proof.
  intros Hpage Hserve Hmore Hlast Hfuel.
  destruct (walk_to_last host _ _ _ _ n Hserve Hmore Hlast 0%nat fuel [] w)
    as (w' & Hrun & Hlog); [lia|lia|].
  exists w'. split; [|done].
  unfold VierVideosIE._real_extract. rewrite Hpage. simpl.
  rewrite bind_run. simpl. rewrite bind_run.
  change (Z.of_nat 0) with 0 in Hrun. by rewrite Hrun.
Qed.

(** With an explicit page other than 0 the walker fetches that page alone,
    and names the listing after the program and the page. *)
Lemma explicit_page_fetches_one_page host fuel url mobj s n w resp :
  VierVideosIE.vm_page mobj = Some s →
  PyStr.to_int s = Some n → n ≠ 0 →
  urlopen host (GET (VierVideosIE.page_url (VierVideosIE.vm_site mobj)
                       (VierVideosIE.vm_program mobj) n)) (cookiejar w)
  = Some resp →
  VierVideosIE._real_extract host (S fuel) url mobj w
  = (Val (Some (playlist_result
                  (VierVideosIE.page_entries host (VierVideosIE.vm_site mobj)
                     (body resp))
                  (VierVideosIE.vm_program mobj +:+ "-page" +:+ PyStr.of_Z n))),
     add_cookies (set_cookies resp)
       (add_event (Sent (GET (VierVideosIE.page_url (VierVideosIE.vm_site mobj)
                                (VierVideosIE.vm_program mobj) n)) true) w)).
Proof.
  intros Hpage Hint Hn Hopen. unfold VierVideosIE._real_extract.
  rewrite Hpage. simpl.
  assert (String.eqb s "" = false) as ->.
  { destruct (String.eqb_spec s "") as [->|]; [discriminate|done]. }
  simpl. rewrite Hint. rewrite bind_run. simpl. rewrite bind_run.
  rewrite (bind_step _ _ _ _ _ (download_webpage_ok _ _ _ _ _ Hopen)).
  assert ((n =? 0) = false) as -> by lia. reflexivity.
Qed.

(** Without an explicit page the listing is named after the program. *)
Lemma playlist_id_without_page host fuel url mobj w playlist w' :
  VierVideosIE.vm_page mobj = None →
  VierVideosIE._real_extract host fuel url mobj w = (Val (Some playlist), w') →
  playlist_id playlist = VierVideosIE.vm_program mobj.
Proof.
  intros Hpage. unfold VierVideosIE._real_extract. rewrite Hpage. simpl.
  intros H. apply bind_Val in H as (a & w0 & Ha & H).
  apply ret_Val in Ha as [<- ->]. simpl in H.
  apply bind_Val in H as (es & w1 & _ & H).
  apply ret_Val in H as [H _]. destruct es; [|discriminate].
  by injection H as <-.
Qed.

(** C8, where it fails: with the explicit page 0 the walker does not stop
    after page 0: in the demo world, where the pages 0 to 2 have the marker,
    it fetches the pages 0 to 3 and returns the links of all four, under
    the name of page 0. *)
Lemma explicit_page_0_walks_every_page :
  let run := VierVideosIE._real_extract Demo.anonymous 10
               "http://www.vier.be/demoestuin/videos?page=0"
               (Demo.videos_match (Some "0")) Demo.start in
  log run.2 = page_requests "vier" "demoestuin" 0 4
  ∧ run.1 = Val (Some (playlist_result
                         (pages_entries Demo.anonymous "vier" Demo.page_text 0 4)
                         "demoestuin-page0")).
Proof. split; vm_compute; reflexivity. Qed.

(** ** What a run leaves unchanged *)

Section Preservation.

Context {R : World → World → Prop} {ok : Event → bool} `{!Frame R ok}.
Variable host : Host.

Lemma preserves_ret {A} (a : A) : preserves R (mret a).
Proof. intros w. apply frame_refl. Qed.

Lemma preserves_raise {A} (e : Exn) : preserves R (raise e : M A).
Proof. intros w. apply frame_refl. Qed.

Lemma preserves_lift {A} (o : Outcome A) : preserves R (lift o).
Proof. intros w. apply frame_refl. Qed.

Lemma preserves_bind {A B} (m : M A) (f : A → M B) :
  preserves R m → (∀ a, preserves R (f a)) → preserves R (m ≫= f).
Proof.
  intros Hm Hf w. rewrite bind_run. specialize (Hm w).
  destruct (m w) as [[a|e] w1]; simpl in *; [|done].
  eapply frame_trans; [exact Hm|apply Hf].
Qed.

Lemma preserves_emit (e : Event) : ok e = true → preserves R (emit e).
Proof. intros He w. by apply frame_event. Qed.

Lemma preserves_report_warning msg : preserves R (report_warning msg).
Proof. apply preserves_emit, frame_warning. Qed.

Lemma preserves_request r errnote fatal :
  ok (Sent r true) = true → ok (Sent r false) = true →
  preserves R (_request_webpage host r errnote fatal).
Proof.
  intros Ht Hf w. unfold _request_webpage.
  destruct (urlopen host r (cookiejar w)); simpl.
  - apply (frame_trans _ (add_event (Sent r true) w));
      [by apply frame_event|apply frame_cookies].
  - destruct fatal; simpl; [by apply frame_event|].
    apply (frame_trans _ (add_event (Sent r false) w));
      [by apply frame_event|].
    apply frame_event, frame_warning.
Qed.

Lemma preserves_download_webpage r errnote :
  ok (Sent r true) = true → ok (Sent r false) = true →
  preserves R (_download_webpage host r errnote).
Proof.
  intros Ht Hf. apply preserves_bind; [by apply preserves_request|].
  intros [resp|]; [apply preserves_ret|apply preserves_raise].
Qed.

Lemma preserves_parse_json text : preserves R (_parse_json host text).
Proof.
  unfold _parse_json. destruct (json_loads host text);
    [apply preserves_ret|apply preserves_raise].
Qed.

Lemma preserves_download_json r :
  ok (Sent r true) = true → ok (Sent r false) = true →
  preserves R (_download_json host r).
Proof.
  intros Ht Hf. apply preserves_bind; [by apply preserves_download_webpage|].
  intros text. apply preserves_parse_json.
Qed.

Lemma preserves_get_cookies u : preserves R (_get_cookies host u).
Proof. intros w. apply frame_refl. Qed.

Lemma preserves_search_regex ps text name dflt fatal :
  preserves R (_search_regex host ps text name dflt fatal).
Proof.
  unfold _search_regex. destruct (search_first host ps text);
    [apply preserves_ret|].
  destruct dflt; [|apply preserves_ret].
  destruct fatal; [apply preserves_raise|].
  apply preserves_bind; [apply preserves_report_warning|].
  intros _. apply preserves_ret.
Qed.

Lemma preserves_html_search_regex ps text name dflt fatal :
  preserves R (_html_search_regex host ps text name dflt fatal).
Proof.
  apply preserves_bind; [apply preserves_search_regex|].
  intros [r|]; [|apply preserves_ret].
  destruct (String.eqb r ""); apply preserves_ret.
Qed.

Lemma preserves_og_search_property prop text name dflt fatal :
  preserves R (_og_search_property host prop text name dflt fatal).
Proof.
  apply preserves_bind; [apply preserves_search_regex|].
  intros escaped. apply preserves_ret.
Qed.

Lemma preserves_extract_manifest kind u fatal :
  (∀ s b, ok (Sent (GET s) b) = true) →
  preserves R (_extract_manifest_formats host kind u fatal).
Proof.
  intros Hok. apply preserves_bind.
  { destruct u; try apply preserves_raise. apply preserves_ret. }
  intros s. apply preserves_bind; [by apply preserves_request|].
  intros [resp|]; [|apply preserves_ret].
  destruct (parse_manifest host kind s (body resp)); [apply preserves_ret|].
  destruct fatal; [apply preserves_raise|].
  apply preserves_bind; [apply preserves_report_warning|].
  intros _. apply preserves_ret.
Qed.

Lemma preserves_sort_formats formats : preserves R (_sort_formats host formats).
Proof. destruct formats; [apply preserves_raise|apply preserves_ret]. Qed.

Lemma preserves_on_raise_bind {A B} (m : M A) (f : A → M B) :
  preserves R m → (∀ a, preserves_on_raise R (f a)) →
  preserves_on_raise R (m ≫= f).
Proof.
  intros Hm Hf w e w'. rewrite bind_run. specialize (Hm w).
  destruct (m w) as [[a|e1] w1] eqn:Hrun; simpl in Hm.
  - intros Hk. eapply frame_trans; [exact Hm|]. eapply Hf, Hk.
  - by intros [= _ <-].
Qed.

End Preservation.

(** ** The authentication handshake of VrtNUIE (canvas.py 162-221) *)

Lemma session_state_add_event e w :
  session_state (add_event e w)
  = if is_token_exchange e then LoggedIn else session_state w.
Proof.
  unfold session_state. simpl. rewrite existsb_app. simpl.
  rewrite orb_false_r. destruct (existsb _ (log w)), (is_token_exchange e); done.
Qed.

#[global] Instance stays_logged_out_frame :
  Frame stays_logged_out (λ e, negb (is_token_exchange e)).
Proof.
  split; unfold stays_logged_out.
  - auto.
  - auto.
  - intros cs w. done.
  - intros e w He. rewrite session_state_add_event.
    by destruct (is_token_exchange e).
  - done.
Qed.

Lemma get_login_info_run host w :
  _get_login_info host w = (Val (login_info host), add_event ReadLoginInfo w).
Proof. reflexivity. Qed.

Lemma request_webpage_ok host r errnote fatal w resp :
  urlopen host r (cookiejar w) = Some resp →
  _request_webpage host r errnote fatal w
  = (Val (Some resp), add_cookies (set_cookies resp) (add_event (Sent r true) w)).
Proof. intros H. unfold _request_webpage. by rewrite H. Qed.

Lemma login_raise_keeps_logged_out host :
  preserves_on_raise stays_logged_out (VrtNUIE._login host).
Proof.
  unfold VrtNUIE._login.
  apply preserves_on_raise_bind; [|intros [username password]].
  { apply preserves_bind; [by apply preserves_emit|intros _; apply preserves_ret]. }
  apply preserves_on_raise_bind; [|intros _].
  { destruct username; [apply preserves_ret|apply preserves_raise]. }
  apply preserves_on_raise_bind; [|intros _].
  { by apply preserves_request. }
  apply preserves_on_raise_bind; [|intros cookies].
  { apply preserves_get_cookies. }
  apply preserves_on_raise_bind; [|intros _].
  { destruct (_ || _); [apply preserves_raise|apply preserves_ret]. }
  apply preserves_on_raise_bind; [|intros saved_response].
  { by apply preserves_download_webpage. }
  apply preserves_on_raise_bind; [|intros found].
  { apply preserves_search_regex. }
  apply preserves_on_raise_bind; [|intros auth_info_js].
  { destruct found; [apply preserves_ret|apply preserves_raise]. }
  apply preserves_on_raise_bind; [|intros auth_info].
  { apply preserves_parse_json. }
  apply preserves_on_raise_bind; [|intros payload].
  { apply preserves_lift. }
  intros w e w'. rewrite bind_run. unfold _request_webpage.
  destruct (urlopen host _ _); [discriminate|].
  intros [= _ <-]. by apply frame_event.
Qed.

(** C3: the handshake of [VrtNUIE] without a stored user name raises the
    login-required error, having sent nothing; when the jar lacks one of
    the cookies ucid and gmid after the credential POST was answered, it
    raises the login-failed error, the POST being the only request sent;
    and whenever it raises, a session that was logged out stays logged out:
    the token exchange has not been answered. *)
Theorem login_failure_leaves_logged_out host w :
  (∀ password,
     login_info host = (None, password) →
     VrtNUIE._login host w = (Raise LoginRequired, add_event ReadLoginInfo w))
  ∧ (∀ username password resp,
       login_info host = (Some username, password) →
       urlopen host (VrtNUIE.login_request (Some username) password) (cookiejar w)
       = Some resp →
       "ucid" ∉ gigya_cookies_after host resp w
       ∨ "gmid" ∉ gigya_cookies_after host resp w →
       VrtNUIE._login host w
       = (Raise (LoginFailed "Unable to login: missing cookies"),
          add_cookies (set_cookies resp)
            (add_event (Sent (VrtNUIE.login_request (Some username) password) true)
               (add_event ReadLoginInfo w))))
  ∧ (∀ e w',
       VrtNUIE._login host w = (Raise e, w') →
       session_state w = LoggedOut → session_state w' = LoggedOut).
Proof.
  split; [|split].
  - intros password Hinfo. unfold VrtNUIE._login, _get_login_info.
    rewrite !bind_run. simpl. rewrite Hinfo. reflexivity.
  - intros username password resp Hinfo Hopen Hmiss.
    unfold VrtNUIE._login.
    rewrite (bind_step _ _ _ _ _ (get_login_info_run host w)), Hinfo.
    rewrite (bind_step (mret ()) _ _ _ _ eq_refl).
    rewrite (bind_step _ _ _ _ _
               (request_webpage_ok host _ _ _ (add_event ReadLoginInfo w) _ Hopen)).
    rewrite bind_run. simpl.
    change (c_name <$> filter _ _) with (gigya_cookies_after host resp w).
    assert (negb (bool_decide ("ucid" ∈ gigya_cookies_after host resp w))
            || negb (bool_decide ("gmid" ∈ gigya_cookies_after host resp w)) = true)
      as ->; [|reflexivity].
    destruct Hmiss as [H|H]; rewrite (bool_decide_eq_false_2 _ H); simpl;
      [reflexivity|apply orb_true_r].
  - intros e w'. apply login_raise_keeps_logged_out.
Qed.

(** ** The login of VierIE (vier.py 112-148) *)

#[global] Instance quietly_frame : Frame quietly quiet.
Proof.
  split; unfold quietly.
  - intros w. split; [done|]. exists []. by rewrite app_nil_r.
  - intros w1 w2 w3 [H1 (evs1 & Hl1 & Hq1)] [H2 (evs2 & Hl2 & Hq2)].
    split; [congruence|]. exists (evs1 ++ evs2).
    rewrite Hl2, Hl1, app_assoc. split; [done|]. by apply Forall_app.
  - intros cs w. split; [done|]. exists []. by rewrite app_nil_r.
  - intros e w He. split; [done|]. exists [e]. split; [done|]. by constructor.
  - done.
Qed.

Lemma vier_login_returns host site w : VierIE._login host site w = (Val (), w).
Proof. reflexivity. Qed.

Lemma vier_real_extract_quiet host url mobj :
  preserves quietly (VierIE._real_extract host url mobj).
Proof.
  unfold VierIE._real_extract.
  apply preserves_bind; [|intros logged_in].
  { intros w. apply frame_refl. }
  apply preserves_bind; [|intros _].
  { destruct logged_in; simpl; [apply preserves_ret|].
    intros w. rewrite vier_login_returns. apply frame_refl. }
  apply preserves_bind; [|intros webpage].
  { by apply preserves_download_webpage. }
  apply preserves_bind; [|intros video_id].
  { apply preserves_search_regex. }
  apply preserves_bind; [|intros json].
  { by apply preserves_download_json. }
  apply preserves_bind; [|intros playlist_url].
  { apply preserves_lift. }
  apply preserves_bind; [|intros formats].
  { by apply preserves_extract_manifest. }
  apply preserves_bind; [|intros sorted].
  { apply preserves_sort_formats. }
  apply preserves_bind; [|intros _].
  { by apply preserves_emit. }
  apply preserves_bind; [|intros og_title].
  { apply preserves_og_search_property. }
  apply preserves_bind; [|intros description].
  { apply preserves_html_search_regex. }
  apply preserves_bind; [|intros thumbnail].
  { apply preserves_og_search_property. }
  apply preserves_bind; [|intros series].
  { apply preserves_search_regex. }
  apply preserves_bind; [|intros episode].
  { destruct (remove_end_opt _ _); [apply preserves_search_regex|apply preserves_raise]. }
  apply preserves_ret.
Qed.

Lemma extract_all_logged_in host jobs : ∀ w b,
  _logged_in w = b → _logged_in (extract_all host jobs w) = b.
Proof.
  induction jobs as [|job jobs IH]; intros w b Hw; [done|].
  simpl. apply IH.
  destruct (vier_real_extract_quiet host job.1 job.2 w) as [-> _]. done.
Qed.

(** C10: the login of [VierIE] returns at once: whatever the credentials of
    the host, it returns without raising and leaves the world as it was;
    [_real_initialize] sets [_logged_in] to [False]; an extraction leaves
    [_logged_in] as it was, reads no credentials and sends no request with
    a body; so [_logged_in] is [False] after any number of extractions. *)
Theorem vier_login_is_a_no_op host :
  (∀ site w, VierIE._login host site w = (Val (), w))
  ∧ (∀ w, _logged_in (VierIE._real_initialize w).2 = Some false)
  ∧ (∀ url mobj w,
       let w' := (VierIE._real_extract host url mobj w).2 in
       _logged_in w' = _logged_in w
       ∧ ∃ evs, log w' = log w ++ evs ∧ Forall (λ e, quiet e = true) evs)
  ∧ (∀ jobs w,
       _logged_in (extract_all host jobs (VierIE._real_initialize w).2)
       = Some false).
Proof.
  split; [reflexivity|]. split; [reflexivity|]. split.
  - intros url mobj w. apply vier_real_extract_quiet.
  - intros jobs w. by apply extract_all_logged_in.
Qed.

(** ** Required and optional fields *)

Section FieldSteps.

Variable host : Host.

Lemma search_regex_default ps text name v fatal w :
  _search_regex host ps text name (DefaultTo v) fatal w
  = (Val match search_first host ps text with
         | Some g => Some g
         | None => v
         end, w).
Proof. unfold _search_regex. by destruct (search_first host ps text). Qed.

Lemma search_regex_found ps text name dflt fatal g w :
  search_first host ps text = Some g →
  _search_regex host ps text name dflt fatal w = (Val (Some g), w).
Proof. intros H. unfold _search_regex. by rewrite H. Qed.

Lemma search_regex_missing ps text name w :
  search_first host ps text = None →
  _search_regex host ps text name NO_DEFAULT true w
  = (Raise (RegexNotFoundError name), w).
Proof. intros H. unfold _search_regex. by rewrite H. Qed.

Lemma html_search_regex_default_none ps text name fatal w :
  _html_search_regex host ps text name (DefaultTo None) fatal w
  = (Val (html_search host ps text), w).
Proof.
  unfold _html_search_regex, html_search.
  rewrite (bind_step _ _ _ _ _ (search_regex_default _ _ _ _ _ _)).
  destruct (search_first host ps text) as [r|]; [|reflexivity].
  by destruct (String.eqb r "").
Qed.

Lemma search_first_one p text :
  search_first host [p] text = re_search host p text.
Proof. simpl. by destruct (re_search host p text). Qed.

Lemma og_search_property_default prop text name v fatal w :
  _og_search_property host prop text name (DefaultTo v) fatal w
  = (Val (unescapeHTML host <$> match re_search host (OpenGraph prop) text with
                                | Some g => Some g
                                | None => v
                                end), w).
Proof.
  unfold _og_search_property.
  rewrite (bind_step _ _ _ _ _ (search_regex_default _ _ _ _ _ _)).
  by rewrite search_first_one.
Qed.

(** The description of the OpenGraph data is never fatal. *)
Lemma og_search_description_run text w :
  (_og_search_description host text w).1
  = Val (og_search host "description" text).
Proof.
  unfold _og_search_description, _og_search_property, _search_regex, og_search.
  rewrite bind_run, search_first_one.
  by destruct (re_search host (OpenGraph "description") text).
Qed.

Lemma download_page_ok u resp w :
  answers host (GET u) resp →
  _download_webpage host (GET u) "Unable to download webpage" w
  = (Val (body resp), downloaded u resp w).
Proof. intros H. apply download_webpage_ok, H. Qed.

End FieldSteps.

Section Canvas.

Variable host : Host.

Lemma og_search_title_missing text w :
  re_search host (OpenGraph "title") text = None →
  _og_search_title host text NO_DEFAULT w
  = (Raise (RegexNotFoundError "OpenGraph title"), w).
Proof.
  intros H. unfold _og_search_title, _og_search_property.
  apply bind_raise, search_regex_missing. by rewrite search_first_one.
Qed.

(** Without a title on the page, [CanvasIE] raises. *)
Lemma canvas_title_required url mobj w resp :
  answers host (GET url) resp →
  re_search host CanvasTitle (body resp) = None →
  re_search host (OpenGraph "title") (body resp) = None →
  CanvasIE._real_extract host url mobj w
  = (Raise (RegexNotFoundError "OpenGraph title"), downloaded url resp w).
Proof.
  intros Hpage Ht Hog. unfold CanvasIE._real_extract.
  rewrite (bind_step _ _ _ _ _ (download_page_ok host _ _ _ Hpage)).
  rewrite (bind_step _ _ _ _ _ (search_regex_default _ _ _ _ _ _ _)).
  rewrite search_first_one, Ht. simpl.
  apply bind_raise. by apply og_search_title_missing.
Qed.

(** The run of [CanvasIE] on a page with a title, up to the video id. *)
Lemma canvas_real_extract_titled url mobj w resp t :
  answers host (GET url) resp →
  re_search host CanvasTitle (body resp) = Some t → t ≠ "" →
  CanvasIE._real_extract host url mobj w
  = (video_id ← _html_search_regex host [CanvasVideoId] (body resp) "video id"
                  NO_DEFAULT true;
     info ← CanvasIE._extract_info host (cm_site_id mobj) (from_option video_id)
              (cm_id mobj);
     mret (update_title_description info (PyStr.strip t)
             (og_search host "description" (body resp))))
      (_og_search_description host (body resp) (downloaded url resp w)).2.
Proof.
  intros Hpage Ht Hne. unfold CanvasIE._real_extract.
  rewrite (bind_step _ _ _ _ _ (download_page_ok host _ _ _ Hpage)).
  rewrite (bind_step _ _ _ _ _ (search_regex_default _ _ _ _ _ _ _)).
  rewrite search_first_one, Ht. simpl.
  assert (String.eqb t "" = false) as -> by (by apply String.eqb_neq).
  rewrite (bind_step (mret (Some t)) _ _ _ _ eq_refl). simpl.
  rewrite (bind_step (mret (PyStr.strip t)) _ _ _ _ eq_refl).
  rewrite bind_run.
  pose proof (og_search_description_run host (body resp) (downloaded url resp w)) as Hd.
  destruct (_og_search_description host (body resp) (downloaded url resp w))
    as [o w2]. simpl in Hd. subst o. reflexivity.
Qed.

(** Without a video id on the page, [CanvasIE] raises. *)
Lemma canvas_video_id_required url mobj w resp t :
  answers host (GET url) resp →
  re_search host CanvasTitle (body resp) = Some t → t ≠ "" →
  re_search host CanvasVideoId (body resp) = None →
  (CanvasIE._real_extract host url mobj w).1
  = Raise (RegexNotFoundError "video id").
Proof.
  intros Hpage Ht Hne Hid.
  rewrite (canvas_real_extract_titled _ _ _ _ _ Hpage Ht Hne).
  erewrite bind_raise; [reflexivity|].
  unfold _html_search_regex. apply bind_raise, search_regex_missing.
  by rewrite search_first_one.
Qed.

(** With a title and a video id, [CanvasIE] succeeds when [_extract_info]
    does, whether the page has a description or not. *)
Lemma canvas_description_optional url mobj w resp t v info w' :
  answers host (GET url) resp →
  re_search host CanvasTitle (body resp) = Some t → t ≠ "" →
  html_search host [CanvasVideoId] (body resp) = Some v →
  CanvasIE._extract_info host (cm_site_id mobj) (JStr v) (cm_id mobj)
    (_og_search_description host (body resp) (downloaded url resp w)).2
  = (Val info, w') →
  CanvasIE._real_extract host url mobj w
  = (Val (update_title_description info (PyStr.strip t)
            (og_search host "description" (body resp))), w').
Proof.
  intros Hpage Ht Hne Hid Hinfo.
  rewrite (canvas_real_extract_titled _ _ _ _ _ Hpage Ht Hne).
  assert (∀ w0, _html_search_regex host [CanvasVideoId] (body resp) "video id"
                  NO_DEFAULT true w0 = (Val (Some v), w0)) as Hrun.
  { intros w0. unfold _html_search_regex, html_search in *.
    destruct (search_first host [CanvasVideoId] (body resp)) as [r|] eqn:Hs;
      [|discriminate].
    rewrite (bind_step _ _ _ _ _ (search_regex_found _ _ _ _ _ _ _ _ Hs)).
    destruct (String.eqb r ""); by injection Hid as <-. }
  rewrite (bind_step _ _ _ _ _ (Hrun _)). simpl.
  by rewrite (bind_step _ _ _ _ _ Hinfo).
Qed.

End Canvas.

Section VrtNU.

Variable host : Host.

(** With a title, [VrtNUIE] succeeds when the media part does, whichever of
    the description, the season, the episode and the broadcast date the
    page has. *)
Lemma vrtnu_optional_fields url mobj w resp t info w' :
  answers host (GET url) resp →
  re_search host VrtTitle (body resp) = Some t →
  vrtnu_media host url (VrtNUIE.vm_id mobj) (downloaded url resp w) = (Val info, w') →
  VrtNUIE._real_extract host url mobj w
  = (Val (update_episode info (PyStr.strip t)
            (html_search host [VrtDescription] (body resp))
            (html_search host [VrtSeasonTab; VrtSeasonOption] (body resp))
            (drop_year (int_or_none
               (html_search host [VrtSeasonTab; VrtSeasonOption] (body resp))))
            (int_or_none (html_search host [VrtEpisode] (body resp)))
            (parse_iso8601 host (html_search host [VrtBroadcastDate] (body resp)))),
     w').
Proof.
  intros Hpage Ht Hmedia. unfold VrtNUIE._real_extract.
  rewrite (bind_step _ _ _ _ _ (download_page_ok host _ _ _ Hpage)).
  rewrite (bind_step _ _ _ _ _ (search_regex_default _ _ _ _ _ _ _)).
  rewrite search_first_one, Ht. simpl.
  rewrite (bind_step (mret (PyStr.strip t)) _ _ _ _ eq_refl).
  rewrite !(bind_step _ _ _ _ _ (html_search_regex_default_none _ _ _ _ _ _)).
  unfold vrtnu_media in Hmedia.
  apply bind_Val in Hmedia as (json & w1 & Hjson & Hmedia).
  apply bind_Val in Hmedia as (video_id & w2 & Hid & Hmedia).
  rewrite (bind_step _ _ _ _ _ Hjson), (bind_step _ _ _ _ _ Hid).
  by rewrite (bind_step _ _ _ _ _ Hmedia).
Qed.

(** Without a title on the page, [VrtNUIE] ends with the [AttributeError]
    of [None.strip()], not with an extraction error. *)
Lemma vrtnu_title_missing_is_attribute_error url mobj w resp :
  answers host (GET url) resp →
  re_search host VrtTitle (body resp) = None →
  VrtNUIE._real_extract host url mobj w
  = (Raise AttributeError, downloaded url resp w).
Proof.
  intros Hpage Ht. unfold VrtNUIE._real_extract.
  rewrite (bind_step _ _ _ _ _ (download_page_ok host _ _ _ Hpage)).
  rewrite (bind_step _ _ _ _ _ (search_regex_default _ _ _ _ _ _ _)).
  rewrite search_first_one, Ht. reflexivity.
Qed.

End VrtNU.

Section Vier.

Variable host : Host.

(** The first steps of [VierIE._real_extract]: the flag is read, the login
    does nothing, the page is downloaded. *)
Lemma vier_login_step {B} site b (k : () → M B) w :
  ((if negb b then VierIE._login host site else mret ()) ≫= k) w = k () w.
Proof. by destruct b. Qed.

Ltac vier_start Hflag Hpage :=
  unfold VierIE._real_extract;
  rewrite bind_run, Hflag, vier_login_step;
  rewrite (bind_step _ _ _ _ _ (download_page_ok host _ _ _ Hpage)).

(** Without a video id on the page, [VierIE] raises. *)
Lemma vier_video_id_required url mobj w resp b :
  _logged_in w = Some b →
  answers host (GET url) resp →
  re_search host VierDataFile (body resp) = None →
  VierIE._real_extract host url mobj w
  = (Raise (RegexNotFoundError "video id"), downloaded url resp w).
Proof.
  intros Hflag Hpage Hid. vier_start Hflag Hpage.
  apply bind_raise, search_regex_missing. by rewrite search_first_one.
Qed.

(** With a video id, [VierIE] succeeds when the media part does, whichever
    of the title, the description, the thumbnail, the series and the
    episode the page has: the title falls back on the display id. *)
Lemma vier_optional_fields url mobj w resp b vid d formats w' :
  _logged_in w = Some b →
  answers host (GET url) resp →
  re_search host VierDataFile (body resp) = Some vid →
  vier_media host (Some vid) (downloaded url resp w) = (Val formats, w') →
  VierIE.or_else (VierIE.vm_display_id mobj) (VierIE.vm_embed_id mobj) = Some d →
  let title := remove_end (unescapeHTML host
                 (default d (re_search host (OpenGraph "title") (body resp))))
                 " | Vier" in
  VierIE._real_extract host url mobj w
  = (Val (VierIE.Build_VierInfo (Some vid) (Some d) (Some title)
            (html_search host [VierDescription] (body resp))
            (og_search host "image:url" (body resp))
            None
            (re_search host VierDataProgram (body resp))
            (int_or_none (re_search host VierAflevering title))
            (re_findall host VierTag (body resp))
            formats None), w').
Proof.
  intros Hflag Hpage Hid Hmedia Hd title. vier_start Hflag Hpage.
  rewrite <- search_first_one in Hid.
  rewrite (bind_step _ _ _ _ _ (search_regex_found _ _ _ _ _ _ _ _ Hid)).
  unfold vier_media in Hmedia.
  apply bind_Val in Hmedia as (json & w1 & Hjson & Hmedia).
  apply bind_Val in Hmedia as (playlist_url & w2 & Hurl & Hmedia).
  apply bind_Val in Hmedia as (fs & w3 & Hfs & Hmedia).
  apply bind_Val in Hmedia as (sorted & w4 & Hsort & Hmedia).
  apply bind_Val in Hmedia as ([] & w5 & Hprint & Hmedia).
  apply ret_Val in Hmedia as [-> ->].
  rewrite (bind_step _ _ _ _ _ Hjson), (bind_step _ _ _ _ _ Hurl).
  rewrite (bind_step _ _ _ _ _ Hfs), (bind_step _ _ _ _ _ Hsort).
  rewrite (bind_step _ _ _ _ _ Hprint). cbv zeta. rewrite Hd.
  unfold _og_search_title.
  rewrite (bind_step _ _ _ _ _ (og_search_property_default _ _ _ _ _ _ _)).
  rewrite (bind_step _ _ _ _ _ (html_search_regex_default_none _ _ _ _ _ _)).
  rewrite (bind_step _ _ _ _ _ (og_search_property_default _ _ _ _ _ _ _)).
  rewrite (bind_step _ _ _ _ _ (search_regex_default _ _ _ _ _ _ _)).
  rewrite search_first_one.
  assert (remove_end_opt
            (unescapeHTML host <$> match re_search host (OpenGraph "title") (body resp) with
                                   | Some g => Some g
                                   | None => Some d
                                   end) " | Vier" = Some title) as ->.
  { subst title. by destruct (re_search host (OpenGraph "title") (body resp)). }
  rewrite (bind_step _ _ _ _ _ (search_regex_default _ _ _ _ _ _ _)).
  rewrite search_first_one. unfold og_search.
  by destruct (re_search host (OpenGraph "image:url") (body resp)),
       (re_search host VierDataProgram (body resp)),
       (re_search host VierAflevering title).
Qed.

End Vier.

Lemma html_search_none host ps text :
  search_first host ps text = None → html_search host ps text = None.
Proof. intros H. unfold html_search. by rewrite H. Qed.

(** C4, as amended: on a downloaded page, a pattern of an optional field
    that does not match leaves the field absent and raises nothing: the
    description of [CanvasIE]; the description, season, episode and
    broadcast date of [VrtNUIE]; the description, thumbnail, series and
    episode of [VierIE]; each extraction succeeds whenever its required
    fields are found and its media part succeeds.  A required pattern that
    does not match raises the extraction error that names the field: the
    title and the video id of [CanvasIE], the video id of [VierIE].  The
    title of [VierIE] is not required: it falls back on the display id. *)
Theorem required_fields_raise_optional_default host url w resp :
  answers host (GET url) resp →
  (∀ mobj,
     re_search host CanvasTitle (body resp) = None →
     re_search host (OpenGraph "title") (body resp) = None →
     CanvasIE._real_extract host url mobj w
     = (Raise (RegexNotFoundError "OpenGraph title"), downloaded url resp w))
  ∧ (∀ mobj t,
       re_search host CanvasTitle (body resp) = Some t → t ≠ "" →
       re_search host CanvasVideoId (body resp) = None →
       (CanvasIE._real_extract host url mobj w).1
       = Raise (RegexNotFoundError "video id"))
  ∧ (∀ mobj t v info w',
       re_search host CanvasTitle (body resp) = Some t → t ≠ "" →
       html_search host [CanvasVideoId] (body resp) = Some v →
       CanvasIE._extract_info host (cm_site_id mobj) (JStr v) (cm_id mobj)
         (_og_search_description host (body resp) (downloaded url resp w)).2
       = (Val info, w') →
       CanvasIE._real_extract host url mobj w
       = (Val (update_title_description info (PyStr.strip t)
                 (og_search host "description" (body resp))), w'))
  ∧ (∀ mobj t info w',
       re_search host VrtTitle (body resp) = Some t →
       vrtnu_media host url (VrtNUIE.vm_id mobj) (downloaded url resp w)
       = (Val info, w') →
       VrtNUIE._real_extract host url mobj w
       = (Val (update_episode info (PyStr.strip t)
                 (html_search host [VrtDescription] (body resp))
                 (html_search host [VrtSeasonTab; VrtSeasonOption] (body resp))
                 (drop_year (int_or_none
                    (html_search host [VrtSeasonTab; VrtSeasonOption] (body resp))))
                 (int_or_none (html_search host [VrtEpisode] (body resp)))
                 (parse_iso8601 host
                    (html_search host [VrtBroadcastDate] (body resp)))), w'))
  ∧ (∀ mobj b,
       _logged_in w = Some b →
       re_search host VierDataFile (body resp) = None →
       VierIE._real_extract host url mobj w
       = (Raise (RegexNotFoundError "video id"), downloaded url resp w))
  ∧ (∀ mobj b vid d formats w',
       _logged_in w = Some b →
       re_search host VierDataFile (body resp) = Some vid →
       vier_media host (Some vid) (downloaded url resp w) = (Val formats, w') →
       VierIE.or_else (VierIE.vm_display_id mobj) (VierIE.vm_embed_id mobj)
       = Some d →
       let title := remove_end (unescapeHTML host
                      (default d (re_search host (OpenGraph "title") (body resp))))
                      " | Vier" in
       VierIE._real_extract host url mobj w
       = (Val (VierIE.Build_VierInfo (Some vid) (Some d) (Some title)
                 (html_search host [VierDescription] (body resp))
                 (og_search host "image:url" (body resp))
                 None
                 (re_search host VierDataProgram (body resp))
                 (int_or_none (re_search host VierAflevering title))
                 (re_findall host VierTag (body resp))
                 formats None), w'))
  ∧ (∀ ps, search_first host ps (body resp) = None →
           html_search host ps (body resp) = None)
  ∧ (∀ prop, re_search host (OpenGraph prop) (body resp) = None →
             og_search host prop (body resp) = None).
Proof.
  intros Hpage. repeat split.
  - intros mobj. by apply canvas_title_required.
  - intros mobj t. by apply canvas_video_id_required.
  - intros mobj t v info w'. by apply canvas_description_optional.
  - intros mobj t info w'. by apply vrtnu_optional_fields.
  - intros mobj b Hflag. by apply (vier_video_id_required host url mobj w resp b).
  - intros mobj b vid d formats w' Hflag.
    by apply (vier_optional_fields host url mobj w resp b).
  - intros ps. apply html_search_none.
  - intros prop H. unfold og_search. by rewrite H.
Qed.

(** C4, as stated, fails for the title of [VierIE]: the demo page has no
    title, and the extraction raises nothing: it returns a record whose
    title is the display id. *)
Lemma vier_title_missing_raises_nothing :
  let w := set_logged_in false Demo.start in
  let run := VierIE._real_extract Demo.anonymous Demo.vier_url Demo.vier_match w in
  re_search Demo.anonymous (OpenGraph "title") "vier page" = None
  ∧ raised run.1 = false
  ∧ match run.1 with
    | Val info => VierIE.title info = Some "het-wordt-warm-de-moestuin"
    | Raise _ => False
    end
  ∧ ¬ (∀ host url mobj w resp,
         answers host (GET url) resp →
         _logged_in w = Some false →
         re_search host (OpenGraph "title") (body resp) = None →
         ∃ name w',
           VierIE._real_extract host url mobj w
           = (Raise (RegexNotFoundError name), w')).
Proof.
  intros w run. split; [reflexivity|]. split; [reflexivity|].
  split; [vm_compute; reflexivity|].
  intros H.
  destruct (H Demo.anonymous Demo.vier_url Demo.vier_match w
              {| body := "vier page"; set_cookies := [] |})
    as (name & w' & Hrun); [done|done|done|].
  vm_compute in Hrun. discriminate.
Qed.

(** ** The properties at work in the demo world *)

(** The resolver on the five entries of the demo asset: the DASH manifest
    cannot be downloaded, two entries are incomplete, and the formats of
    the other two are returned. *)
Lemma resolver_demo :
  Py.getitem Demo.api_data "targetUrls" = Val (JList Demo.targets)
  ∧ ∃ formats w',
      for_each (CanvasIE.resolve_target Demo.anonymous) [] Demo.targets Demo.start
      = (Val formats, w')
      ∧ CanvasIE.resolve_formats Demo.anonymous Demo.api_data Demo.start
        = (match formats with
           | [] => Raise NoVideoFormatsFound
           | _ => Val (sort_by_rank Demo.anonymous formats)
           end, w')
      ∧ (Demo.targets = [] → formats = []).
Proof.
  split; [reflexivity|].
  apply (resolver_raises_only_without_formats Demo.anonymous Demo.api_data
           Demo.targets Demo.start).
  - reflexivity.
  - repeat constructor.
Defined.

(** The walk over the listing of the demo, whose page 3 is the first
    without the marker: the pages 0 to 3 are fetched. *)
Lemma walker_demo :
  ∃ w',
    VierVideosIE._real_extract Demo.anonymous 10
      "http://www.vier.be/demoestuin/videos" (Demo.videos_match None) Demo.start
    = (Val (Some (playlist_result
                    (pages_entries Demo.anonymous "vier" Demo.page_text 0 4)
                    "demoestuin")), w')
    ∧ log w' = log Demo.start ++ page_requests "vier" "demoestuin" 0 4.
Proof.
  apply (walker_stops_at_first_page_without_marker Demo.anonymous _
           (Demo.videos_match None) Demo.page_text 3 10 Demo.start).
  - reflexivity.
  - intros i jar Hi.
    do 4 (destruct i as [|i]; [eexists; split; reflexivity|]). lia.
  - intros i Hi. do 3 (destruct i as [|i]; [reflexivity|]). lia.
  - reflexivity.
  - lia.
Defined.

(** A wrong password: the identity provider sets no cookie, the handshake
    fails after the credential POST, and the session stays logged out. *)
Lemma login_demo :
  let host := Demo.host (Some "viewer", Some "wrong") in
  let resp := {| body := ""; set_cookies := [] |} in
  let w' := add_cookies (set_cookies resp)
              (add_event (Sent (VrtNUIE.login_request (Some "viewer")
                                  (Some "wrong")) true)
                 (add_event ReadLoginInfo Demo.start)) in
  VrtNUIE._login host Demo.start
  = (Raise (LoginFailed "Unable to login: missing cookies"), w')
  ∧ session_state w' = LoggedOut.
Proof.
  intros host resp w'.
  destruct (login_failure_leaves_logged_out host Demo.start)
    as (_ & Hfailed & Hstate).
  assert (VrtNUIE._login host Demo.start
          = (Raise (LoginFailed "Unable to login: missing cookies"), w')) as Hrun.
  { apply (Hfailed "viewer" (Some "wrong") resp); [reflexivity|reflexivity|].
    left. apply not_elem_of_nil. }
  split; [exact Hrun|]. apply (Hstate _ _ Hrun). reflexivity.
Defined.

(** The season 2015 of the demo episode is a year. *)
Lemma season_demo :
  match (VrtNUIE._real_extract Demo.anonymous Demo.vrtnu_url Demo.vrtnu_match
           Demo.start).1 with
  | Val info => season info = Some "2015" ∧ season_number info = None
  | Raise _ => False
  end.
Proof.
  destruct (VrtNUIE._real_extract Demo.anonymous Demo.vrtnu_url Demo.vrtnu_match
              Demo.start) as [[info|e] w'] eqn:Hrun; simpl.
  - assert (Some "2015" = season info) as Hs
      by exact (f_equal (λ r, match r.1 with
                              | Val i => season i
                              | Raise _ => None
                              end) Hrun).
    split; [done|].
    apply (season_above_1000_is_dropped _ _ _ _ _ _ "2015" 2015 Hrun (eq_sym Hs)
             eq_refl).
  - apply (f_equal (λ r, raised r.1)) in Hrun. discriminate Hrun.
Defined.

(** The asset of the demo lasts 49020 milliseconds. *)
Lemma duration_demo :
  match (CanvasIE._extract_info Demo.anonymous "canvas" (JStr "mz-ast-5e5f90b6")
           "de-afspraak" Demo.start).1 with
  | Val info => duration info = Some 49.02%float
  | Raise _ => False
  end.
Proof.
  destruct (CanvasIE._extract_info Demo.anonymous "canvas" (JStr "mz-ast-5e5f90b6")
              "de-afspraak" Demo.start) as [[info|e] w'] eqn:Hrun; simpl.
  - destruct (duration_is_milliseconds_over_1000 _ _ _ _ _ _ _ Hrun)
      as (data & w1 & Hdata & Hdur & _).
    assert (Demo.api_data = data) as <-
      by exact (f_equal (λ r, match r.1 with
                              | Val d => d
                              | Raise _ => JNull
                              end) Hdata).
    exact (Hdur 49020 49020%float eq_refl eq_refl).
  - apply (f_equal (λ r, raised r.1)) in Hrun. discriminate Hrun.
Defined.

Lemma demo_parsers_give_urls : parsers_give_urls Demo.anonymous.
Proof.
  intros kind u text fs. destruct kind; simpl; try discriminate.
  destruct (String.eqb text "m3u8 manifest"); [|discriminate].
  intros [= <-]. by repeat constructor.
Defined.

(** The entry of the demo that has a type and no URL is passed over, and
    every format of the demo asset has a URL. *)
Lemma dropped_demo :
  CanvasIE.resolve_target Demo.anonymous [] (JDict [("type", JStr "HDS")])
    Demo.start = (Val [], Demo.start)
  ∧ match (CanvasIE.resolve_formats Demo.anonymous Demo.api_data Demo.start).1 with
    | Val formats => Forall (λ f, Py.truthy (url f) = true) formats
    | Raise _ => False
    end.
Proof.
  destruct (entry_dropped_iff_url_or_type_missing Demo.anonymous) as [Hiff Hurls].
  split.
  - apply Hiff; [reflexivity|]. left. reflexivity.
  - destruct (CanvasIE.resolve_formats Demo.anonymous Demo.api_data Demo.start)
      as [[formats|e] w'] eqn:Hrun; simpl.
    + exact (Hurls demo_parsers_give_urls _ _ _ _ Hrun).
    + apply (f_equal (λ r, raised r.1)) in Hrun. discriminate Hrun.
Defined.

(** Of the four subtitle entries of the demo asset, the two closed ones
    with a URL are kept, under the key nl. *)
Lemma subtitles_demo :
  match (CanvasIE._extract_info Demo.anonymous "canvas" (JStr "mz-ast-5e5f90b6")
           "de-afspraak" Demo.start).1 with
  | Val info =>
      subtitles info
      = {["nl" := [{| sub_url := JStr "http://cdn.example/nl.vtt" |};
                   {| sub_url := JStr "http://cdn.example/nl2.vtt" |}]]}
  | Raise _ => False
  end.
Proof.
  destruct (CanvasIE._extract_info Demo.anonymous "canvas" (JStr "mz-ast-5e5f90b6")
              "de-afspraak" Demo.start) as [[info|e] w'] eqn:Hrun; simpl.
  - destruct (subtitles_grouped_under_nl _ _ _ _ _ _ _ Hrun)
      as (data & w1 & v & Hdata & Hv & Hlist & _).
    assert (Demo.api_data = data) as <-
      by exact (f_equal (λ r, match r.1 with
                              | Val d => d
                              | Raise _ => JNull
                              end) Hdata).
    assert (JList (JDict <$> Demo.tracks) = v) as Hv'
      by exact (f_equal (λ r, match r with
                              | Val x => x
                              | Raise _ => JNull
                              end) Hv).
    destruct (Hlist Demo.tracks (eq_sym Hv')) as [-> _]. reflexivity.
  - apply (f_equal (λ r, raised r.1)) in Hrun. discriminate Hrun.
Defined.

(** The demo page of canvas.be has a title and a video id and no
    description: the extraction succeeds, without a description. *)
Lemma fields_demo :
  match (CanvasIE._real_extract Demo.anonymous Demo.canvas_url Demo.canvas_match
           Demo.start).1 with
  | Val info =>
      title info = Some "De afspraak veilt voor de Warmste Week"
      ∧ description info = None
  | Raise _ => False
  end.
Proof.
  pose (resp := {| body := "canvas page"; set_cookies := [] |}).
  assert (answers Demo.anonymous (GET Demo.canvas_url) resp) as Hpage
    by (intros jar; reflexivity).
  destruct (required_fields_raise_optional_default Demo.anonymous
              Demo.canvas_url Demo.start resp Hpage)
    as (_ & _ & Hcanvas & _).
  destruct (CanvasIE._extract_info Demo.anonymous "canvas" (JStr "mz-ast-5e5f90b6")
              (cm_id Demo.canvas_match)
              (_og_search_description Demo.anonymous (body resp)
                 (downloaded Demo.canvas_url resp Demo.start)).2)
    as [[info|e] w'] eqn:Hinfo.
  - rewrite (Hcanvas Demo.canvas_match
               " De afspraak veilt voor de Warmste Week " "mz-ast-5e5f90b6"
               info w' eq_refl ltac:(discriminate) eq_refl Hinfo).
    split; reflexivity.
  - apply (f_equal (λ r, raised r.1)) in Hinfo. discriminate Hinfo.
Defined.
